(** * Paper-trading backend: pricing, scanner, allocation and ledger

    A shallow embedding of [live_trading_backend.py].

    Numbers.  The program computes with Python and numpy floats.  Here every
    number is an exact rational ([Q]): rounding error, [nan] and [inf] are
    outside the model.  Equalities between computed amounts are therefore
    stated with [==] ([Qeq]) unless both sides are the same expression.

    Dates.  A calendar date (the ['%Y-%m-%d'] strings of the program) is a
    day number in [Z]; "now" ([datetime.now()], [pd.Timestamp.now()]) is a
    rational number of days, so that [(a - b).days] is a floor.

    Libraries.  [np.log], [np.sqrt], [np.exp], [norm.cdf] and the pandas
    [Series.std] are not part of the repository; they are the fields of a
    [NumLib] record that every definition takes as a parameter. *)

From Stdlib Require Import ZArith QArith Qreduction Qround Qabs Qminmax.
From Stdlib Require Import Lia Lqa List Bool String.
From stdpp Require Import base option strings gmap.
Import ListNotations.

Local Open Scope Q_scope.

(** ** Python arithmetic on exact numbers *)

Module Py.

Inductive exn : Type :=
| ZeroDivisionError
| KeyError.

Inductive result (A : Type) : Type :=
| Ok (a : A)
| Raise (e : exn).
Arguments Ok {A} a.
Arguments Raise {A} e.

Definition bind {A B : Type} (m : result A) (k : A -> result B) : result B :=
  match m with
  | Ok a => k a
  | Raise e => Raise e
  end.

Definition Qlt_bool (a b : Q) : bool := negb (Qle_bool b a).

(** [max(a, b)]: the first argument unless the second is strictly greater. *)
Definition max (a b : Q) : Q := if Qlt_bool a b then b else a.

(** [a / b] on Python floats raises on a zero divisor. *)
Definition div (a b : Q) : result Q :=
  if Qeq_bool b 0 then Raise ZeroDivisionError else Ok (a / b).

(** [int(x)] truncates toward zero. *)
Definition int (x : Q) : Z := Z.quot (Qnum x) (Z.pos (Qden x)).

(** [round(x, 2)]: nearest multiple of 1/100, ties to the even one. *)
Definition round2 (x : Q) : Q :=
  let s := x * 100 in
  let f := Qfloor s in
  let r := s - inject_Z f in
  let up := inject_Z (f + 1) / 100 in
  let down := inject_Z f / 100 in
  if Qlt_bool r (1 # 2) then down
  else if Qlt_bool (1 # 2) r then up
  else if Z.even f then down else up.

(** [l[i:]] for a possibly negative start index. *)
Definition slice_from {A : Type} (i : Z) (l : list A) : list A :=
  if (i <? 0)%Z
  then skipn (Z.to_nat (Z.of_nat (length l) + i)) l
  else skipn (Z.to_nat i) l.

End Py.

#[global] Instance result_ret : MRet Py.result := fun _ a => Py.Ok a.
#[global] Instance result_bind : MBind Py.result := fun _ _ k m => Py.bind m k.

(** ** External numeric libraries *)

Record NumLib : Type := {
  np_log : Q -> Q;
  np_sqrt : Q -> Q;
  np_exp : Q -> Q;
  norm_cdf : Q -> Q;
  series_std : list Q -> Q
}.

(** ** Black-Scholes and options pricing *)

Section Pricing.

Variable L : NumLib.

(** The body of the [try] block of [black_scholes], on Python numbers:
    [S / K] raises when [K] is zero.  The quotient that defines [d1] is
    taken by numpy, which does not raise.  When [S] is a numpy number the
    quotient [S / K] by a zero strike is infinite and nothing is raised;
    the two readings agree for every strike other than zero, and the
    properties of the closed form below are stated for such strikes. *)
Definition black_scholes_closed_form
    (S K T r sigma : Q) (option_type : string) : Py.result Q :=
  m ← Py.div S K;
  let d1 := (np_log L m + (r + (1 # 2) * sigma ^ 2) * T)
            / (sigma * np_sqrt L T) in
  let d2 := d1 - sigma * np_sqrt L T in
  if String.eqb option_type "call"
  then Py.Ok (S * norm_cdf L d1 - K * np_exp L (- r * T) * norm_cdf L d2)
  else Py.Ok (K * norm_cdf L (- d2) * np_exp L (- r * T)
              - S * norm_cdf L (- d1)).

Definition black_scholes
    (S K T r sigma : Q) (option_type : string) : Q :=
  if Qle_bool T 0 || Qle_bool sigma 0
  then (if String.eqb option_type "call"
        then Py.max (S - K) 0 else Py.max (K - S) 0)
  else match black_scholes_closed_form S K T r sigma option_type with
       | Py.Ok v => v
       | Py.Raise _ => 0
       end.

(** [Series.pct_change().dropna()] on a series of closes without gaps:
    the leading [nan] is dropped and one return per consecutive pair
    remains. *)
Fixpoint pct_change (closes : list Q) : list Q :=
  match closes with
  | [] => []
  | p :: rest =>
      match rest with
      | [] => []
      | q :: _ => (q / p - 1) :: pct_change rest
      end
  end.

(** [calculate_historical_vol]; [history n] stands for the closes that
    [stock.history(period=f'{n}d')] returns for the ticker. *)
Definition calculate_historical_vol
    (history : Z -> list Q) (window : Z) : Q :=
  let hist := history (window + 10)%Z in
  let returns := pct_change hist in
  if (Z.of_nat (length returns) <? window)%Z
  then 1 # 5
  else series_std L (Py.slice_from (- window) returns) * np_sqrt L 252.

End Pricing.

(** ** Data model *)

Inductive Action : Type := SELL | BUY.

Inductive Status : Type := OPEN | CLOSED.

Definition Action_eqb (a b : Action) : bool :=
  match a, b with
  | SELL, SELL | BUY, BUY => true
  | _, _ => false
  end.

(** One row of [chain.calls]; [row_iv = None] when the row has no
    ['impliedVolatility'] entry. *)
Record Quote : Type := {
  row_strike : Q;
  row_bid : Q;
  row_ask : Q;
  row_volume : Q;
  row_iv : option Q
}.

(** The dictionary built by [find_option_opportunity]. *)
Record Opportunity : Type := {
  opp_ticker : string;
  opp_action : Action;
  opp_strike : Q;
  opp_expiration : Z;
  opp_price : Q;
  opp_market_mid : Q;
  opp_theoretical : Q;
  opp_iv : Q;
  opp_hv : Q;
  opp_iv_edge : Q;
  opp_price_edge : Q;
  opp_price_edge_pct : Q;
  opp_moneyness : Q;
  opp_current_stock_price : Q;
  opp_T : Q
}.

(** A position dictionary.  The four exit entries are absent ([None])
    until [update_positions] closes the position. *)
Record Position : Type := {
  pos_id : nat;
  pos_entry_date : Z;
  pos_ticker : string;
  pos_action : Action;
  pos_strike : Q;
  pos_expiration : Z;
  pos_contracts : Z;
  pos_entry_price : Q;
  pos_premium_collected : Q;
  pos_premium_paid : Q;
  pos_entry_stock_price : Q;
  pos_entry_iv : Q;
  pos_status : Status;
  pos_days_held : Z;
  pos_current_pnl : Q;
  pos_exit_date : option Z;
  pos_exit_stock_price : option Q;
  pos_intrinsic_value : option Q;
  pos_pnl : option Q
}.

Record Stats : Type := {
  total_trades : Z;
  winning_trades : Z;
  losing_trades : Z;
  total_pnl : Q;
  largest_win : Q;
  largest_loss : Q
}.

(** A daily snapshot; [snap_benchmarks] maps a ticker [t] to the entry
    stored under the key [f'{t.lower()}_benchmark']. *)
Record Snapshot : Type := {
  snap_date : Z;
  snap_portfolio_value : Q;
  snap_cash : Q;
  snap_positions_value : Q;
  snap_benchmarks : gmap string Q
}.

(** [self.portfolio]; [performance_stats = None] when the loaded document
    has no such key. *)
Record Portfolio : Type := {
  start_date : Z;
  initial_capital : Q;
  current_cash : Q;
  positions : list Position;
  closed_trades : list Position;
  daily_snapshots : list Snapshot;
  benchmark_shares : gmap string Q;
  performance_stats : option Stats
}.

(** What the market-data provider answers during one run. *)
Record Market : Type := {
  now : Q;
  price : string -> Q;
  options : string -> list Z;
  option_chain : string -> Z -> list Quote;
  history : string -> Z -> list Q
}.

Definition today (mkt : Market) : Z := Qfloor (now mkt).

(** [(d - now).days] for a date [d]. *)
Definition days_until (mkt : Market) (d : Z) : Z :=
  Qfloor (inject_Z d - now mkt).

(** [(now - d).days] for a date [d]. *)
Definition days_since (mkt : Market) (d : Z) : Z :=
  Qfloor (now mkt - inject_Z d).

(** ** Portfolio manager *)

Definition tickers : list string := ["SPY"; "VOO"; "VTI"; "QQQ"]%string.
Definition allocation_per_ticker : Q := 250.
Definition r : Q := 45 # 1000.

Definition empty_stats : Stats :=
  {| total_trades := 0; winning_trades := 0; losing_trades := 0;
     total_pnl := 0; largest_win := 0; largest_loss := 0 |}.

(** [initialize_portfolio]; [fetch t = None] when fetching the price of
    [t] raises, in which case 250 is used. *)
Definition initialize_portfolio
    (date : Z) (fetch : string -> option Q) : Portfolio :=
  let initial_prices (t : string) : Q :=
    match fetch t with Some p => p | None => 250 end in
  {| start_date := date;
     initial_capital := 1000;
     current_cash := 1000;
     positions := [];
     closed_trades := [];
     daily_snapshots :=
       [ {| snap_date := date;
            snap_portfolio_value := 1000;
            snap_cash := 1000;
            snap_positions_value := 0;
            snap_benchmarks :=
              list_to_map (map (fun t => (t, 250)) tickers) |} ];
     benchmark_shares :=
       list_to_map (map (fun t => (t, 250 / initial_prices t)) tickers);
     performance_stats := Some empty_stats |}.

(** *** execute_trade *)

(** What [execute_trade] reports: the two messages that come with a
    [False] return, and the executed trade that comes with [True]. *)
Inductive TradeReport : Type :=
| DuplicatePosition
| InsufficientCash
| TradeExecuted.

Definition success (t : TradeReport) : bool :=
  match t with
  | TradeExecuted => true
  | DuplicatePosition | InsufficientCash => false
  end.

Definition is_duplicate (opp : Opportunity) (pos : Position) : bool :=
  String.eqb (pos_ticker pos) (opp_ticker opp)
  && Qeq_bool (pos_strike pos) (opp_strike opp)
  && Z.eqb (pos_expiration pos) (opp_expiration opp)
  && Action_eqb (pos_action pos) (opp_action opp).

Definition premium_per_contract (opp : Opportunity) : Q := opp_price opp * 100.

(** [max(1, int(allocation * 0.02 / premium_per_contract))]; the quotient
    cannot be taken when the premium is zero (for a numpy premium of zero
    the quotient is infinite and it is [int] that raises). *)
Definition position_size (opp : Opportunity) : Py.result Z :=
  q ← Py.div (allocation_per_ticker * (2 # 100)) (premium_per_contract opp);
  Py.Ok (Z.max 1 (Py.int q)).

Definition new_trade
    (mkt : Market) (st : Portfolio) (opp : Opportunity)
    (contracts : Z) (total_premium : Q) : Position :=
  {| pos_id := length (positions st) + length (closed_trades st);
     pos_entry_date := today mkt;
     pos_ticker := opp_ticker opp;
     pos_action := opp_action opp;
     pos_strike := opp_strike opp;
     pos_expiration := opp_expiration opp;
     pos_contracts := contracts;
     pos_entry_price := opp_price opp;
     pos_premium_collected :=
       match opp_action opp with SELL => total_premium | BUY => 0 end;
     pos_premium_paid :=
       match opp_action opp with BUY => total_premium | SELL => 0 end;
     pos_entry_stock_price := opp_current_stock_price opp;
     pos_entry_iv := opp_iv opp;
     pos_status := OPEN;
     pos_days_held := 0;
     pos_current_pnl := 0;
     pos_exit_date := None;
     pos_exit_stock_price := None;
     pos_intrinsic_value := None;
     pos_pnl := None |}.

Definition open_position
    (st : Portfolio) (trade : Position) (total_premium : Q) : Portfolio :=
  {| start_date := start_date st;
     initial_capital := initial_capital st;
     current_cash :=
       match pos_action trade with
       | SELL => current_cash st + total_premium
       | BUY => current_cash st - total_premium
       end;
     positions := positions st ++ [trade];
     closed_trades := closed_trades st;
     daily_snapshots := daily_snapshots st;
     benchmark_shares := benchmark_shares st;
     performance_stats := performance_stats st |}.

Definition execute_trade
    (mkt : Market) (st : Portfolio) (opp : Opportunity)
    : Py.result (TradeReport * Portfolio) :=
  if existsb (is_duplicate opp) (positions st)
  then Py.Ok (DuplicatePosition, st)
  else
    contracts ← position_size opp;
    let total_premium := inject_Z contracts * premium_per_contract opp in
    if Py.Qlt_bool (current_cash st) total_premium
    then Py.Ok (InsufficientCash, st)
    else
      let trade := new_trade mkt st opp contracts total_premium in
      Py.Ok (TradeExecuted, open_position st trade total_premium).

(** *** update_positions *)

Definition intrinsic (spot : Q) (pos : Position) : Q :=
  Py.max (spot - pos_strike pos) 0.

Definition realized_pnl (spot : Q) (pos : Position) : Q :=
  match pos_action pos with
  | SELL => pos_premium_collected pos
            - intrinsic spot pos * inject_Z (pos_contracts pos) * 100
  | BUY => intrinsic spot pos * inject_Z (pos_contracts pos) * 100
           - pos_premium_paid pos
  end.

Definition record_trade (s : Stats) (pnl : Q) : Stats :=
  if Py.Qlt_bool 0 pnl
  then {| total_trades := total_trades s + 1;
          winning_trades := winning_trades s + 1;
          losing_trades := losing_trades s;
          total_pnl := total_pnl s + pnl;
          largest_win :=
            if Py.Qlt_bool (largest_win s) pnl then pnl else largest_win s;
          largest_loss := largest_loss s |}
  else {| total_trades := total_trades s + 1;
          winning_trades := winning_trades s;
          losing_trades := losing_trades s + 1;
          total_pnl := total_pnl s + pnl;
          largest_win := largest_win s;
          largest_loss :=
            if Py.Qlt_bool pnl (largest_loss s) then pnl else largest_loss s |}.

Definition set_days_held (pos : Position) (d : Z) : Position :=
  {| pos_id := pos_id pos;
     pos_entry_date := pos_entry_date pos;
     pos_ticker := pos_ticker pos;
     pos_action := pos_action pos;
     pos_strike := pos_strike pos;
     pos_expiration := pos_expiration pos;
     pos_contracts := pos_contracts pos;
     pos_entry_price := pos_entry_price pos;
     pos_premium_collected := pos_premium_collected pos;
     pos_premium_paid := pos_premium_paid pos;
     pos_entry_stock_price := pos_entry_stock_price pos;
     pos_entry_iv := pos_entry_iv pos;
     pos_status := pos_status pos;
     pos_days_held := d;
     pos_current_pnl := pos_current_pnl pos;
     pos_exit_date := pos_exit_date pos;
     pos_exit_stock_price := pos_exit_stock_price pos;
     pos_intrinsic_value := pos_intrinsic_value pos;
     pos_pnl := pos_pnl pos |}.

Definition set_closed
    (pos : Position) (date : Z) (spot value pnl : Q) : Position :=
  {| pos_id := pos_id pos;
     pos_entry_date := pos_entry_date pos;
     pos_ticker := pos_ticker pos;
     pos_action := pos_action pos;
     pos_strike := pos_strike pos;
     pos_expiration := pos_expiration pos;
     pos_contracts := pos_contracts pos;
     pos_entry_price := pos_entry_price pos;
     pos_premium_collected := pos_premium_collected pos;
     pos_premium_paid := pos_premium_paid pos;
     pos_entry_stock_price := pos_entry_stock_price pos;
     pos_entry_iv := pos_entry_iv pos;
     pos_status := CLOSED;
     pos_days_held := pos_days_held pos;
     pos_current_pnl := pos_current_pnl pos;
     pos_exit_date := Some date;
     pos_exit_stock_price := Some spot;
     pos_intrinsic_value := Some value;
     pos_pnl := Some pnl |}.

Definition expired (mkt : Market) (pos : Position) : bool :=
  Qle_bool (inject_Z (pos_expiration pos)) (now mkt).

(** The ledger part of the portfolio that the loop of [update_positions]
    mutates while it walks over the old list of positions, together with
    the local [new_positions]. *)
Record Ledger : Type := {
  led_cash : Q;
  led_closed : list Position;
  led_stats : option Stats;
  led_new_positions : list Position
}.

(** One iteration of the loop of [update_positions]. *)
Definition update_position
    (mkt : Market) (led : Ledger) (pos0 : Position) : Ledger :=
  let pos := set_days_held pos0 (days_since mkt (pos_entry_date pos0)) in
  if expired mkt pos
  then
    let current_price := price mkt (pos_ticker pos) in
    let value := intrinsic current_price pos in
    let pnl := realized_pnl current_price pos in
    let stats :=
      match led_stats led with Some s => s | None => empty_stats end in
    {| led_cash := led_cash led + pnl;
       led_closed :=
         led_closed led ++ [set_closed pos (today mkt) current_price value pnl];
       led_stats := Some (record_trade stats pnl);
       led_new_positions := led_new_positions led |}
  else
    {| led_cash := led_cash led;
       led_closed := led_closed led;
       led_stats := led_stats led;
       led_new_positions := led_new_positions led ++ [pos] |}.

Definition update_positions (mkt : Market) (st : Portfolio) : Portfolio :=
  let led :=
    fold_left (update_position mkt) (positions st)
      {| led_cash := current_cash st;
         led_closed := closed_trades st;
         led_stats := performance_stats st;
         led_new_positions := [] |} in
  {| start_date := start_date st;
     initial_capital := initial_capital st;
     current_cash := led_cash led;
     positions := led_new_positions led;
     closed_trades := led_closed led;
     daily_snapshots := daily_snapshots st;
     benchmark_shares := benchmark_shares st;
     performance_stats := led_stats led |}.

(** ** Scanner, snapshot and the daily run *)

Section Trading.

Variable L : NumLib.

(** *** find_option_opportunity *)

(** The loop that looks for the expiration closest to 30 days out.  The
    state is [(target_exp, min_diff)], with [None] for the initial
    [float('inf')]. *)
Definition closer_expiration
    (mkt : Market) (acc : option Z * option Z) (exp : Z)
    : option Z * option Z :=
  let dte := days_until mkt exp in
  let diff := Z.abs (dte - 30) in
  let below :=
    match snd acc with
    | None => true
    | Some min_diff => (diff <? min_diff)%Z
    end in
  if below && (0 <? dte)%Z then (Some exp, Some diff) else acc.

Definition select_expiration (mkt : Market) (exps : list Z) : option Z :=
  fst (fold_left (closer_expiration mkt) exps (None, None)).

Definition liquid (row : Quote) : bool :=
  Py.Qlt_bool 10 (row_volume row) && Py.Qlt_bool (1 # 10) (row_bid row).

Definition in_band (moneyness : Q) : bool :=
  negb (Py.Qlt_bool moneyness (105 # 100)
        || Py.Qlt_bool (115 # 100) moneyness).

Definition quoted_iv (hist_vol : Q) (row : Quote) : Q :=
  match row_iv row with
  | Some v => v
  | None => hist_vol * (11 # 10)
  end.

Definition price_edge_pct (market_price theo_price : Q) : Q :=
  if Py.Qlt_bool 0 theo_price
  then (market_price - theo_price) / theo_price
  else 0.

Definition market_mid (row : Quote) : Q := (row_bid row + row_ask row) / 2.

(** The dictionary stored in [best_opportunity] for a row. *)
Definition make_opportunity
    (ticker : string) (current_price : Q) (target_exp : Z) (T hist_vol : Q)
    (row : Quote) : Opportunity :=
  let K := row_strike row in
  let market_price := market_mid row in
  let theo_price := black_scholes L current_price K T r hist_vol "call" in
  {| opp_ticker := ticker;
     opp_action := SELL;
     opp_strike := K;
     opp_expiration := target_exp;
     opp_price := row_bid row;
     opp_market_mid := market_price;
     opp_theoretical := theo_price;
     opp_iv := quoted_iv hist_vol row;
     opp_hv := hist_vol;
     opp_iv_edge := quoted_iv hist_vol row - hist_vol;
     opp_price_edge := market_price - theo_price;
     opp_price_edge_pct := price_edge_pct market_price theo_price;
     opp_moneyness := K / current_price;
     opp_current_stock_price := current_price;
     opp_T := T |}.

(** One iteration of the loop over [liquid_calls]; the state is
    [(best_opportunity, best_edge)]. *)
Definition analyze_option
    (ticker : string) (current_price : Q) (target_exp : Z) (T hist_vol : Q)
    (acc : option Opportunity * Q) (row : Quote)
    : option Opportunity * Q :=
  let K := row_strike row in
  let moneyness := K / current_price in
  if negb (in_band moneyness) then acc
  else
    let market_price := market_mid row in
    let iv := quoted_iv hist_vol row in
    let theo_price := black_scholes L current_price K T r hist_vol "call" in
    let iv_edge := iv - hist_vol in
    let pct := price_edge_pct market_price theo_price in
    if Py.Qlt_bool (3 # 100) iv_edge && Py.Qlt_bool (5 # 100) pct
    then
      let edge := market_price - theo_price in
      if Py.Qlt_bool (snd acc) edge
      then (Some (make_opportunity ticker current_price target_exp T
                    hist_vol row), edge)
      else acc
    else acc.

Definition find_option_opportunity
    (mkt : Market) (ticker : string) : option Opportunity :=
  let current_price := price mkt ticker in
  let expirations := options mkt ticker in
  if (length expirations =? 0)%nat then None
  else
    match select_expiration mkt expirations with
    | None => None
    | Some target_exp =>
        let T := inject_Z (days_until mkt target_exp) / 365 in
        let calls := option_chain mkt ticker target_exp in
        let liquid_calls := List.filter liquid calls in
        if (length liquid_calls =? 0)%nat then None
        else
          let hist_vol :=
            calculate_historical_vol L (history mkt ticker) 30 in
          fst (fold_left
                 (analyze_option ticker current_price target_exp T hist_vol)
                 liquid_calls (None, 0))
    end.

(** *** update_daily_snapshot *)

Definition mark_to_market
    (mkt : Market) (positions_value : Q) (pos : Position) : Q :=
  let current_price := price mkt (pos_ticker pos) in
  let days_to_exp := days_until mkt (pos_expiration pos) in
  let T := Py.max (inject_Z days_to_exp / 365) (1 # 1000) in
  let option_value :=
    black_scholes L current_price (pos_strike pos) T r
      (pos_entry_iv pos) "call" in
  match pos_action pos with
  | SELL => positions_value - option_value * inject_Z (pos_contracts pos) * 100
  | BUY => positions_value + option_value * inject_Z (pos_contracts pos) * 100
  end.

(** One iteration of the benchmark loop; the state is
    [(benchmark_shares, benchmarks)].  Reading the shares of a ticker
    that the document does not list raises. *)
Definition update_benchmark
    (mkt : Market) (first_day : bool)
    (acc : gmap string Q * gmap string Q) (ticker : string)
    : Py.result (gmap string Q * gmap string Q) :=
  let current_price := price mkt ticker in
  let shares_map :=
    if first_day
    then <[ ticker := 250 / current_price ]> (fst acc)
    else fst acc in
  match shares_map !! ticker with
  | None => Py.Raise Py.KeyError
  | Some shares =>
      Py.Ok (shares_map, <[ ticker := shares * current_price ]> (snd acc))
  end.

Fixpoint update_benchmarks
    (mkt : Market) (first_day : bool) (ts : list string)
    (acc : gmap string Q * gmap string Q)
    : Py.result (gmap string Q * gmap string Q) :=
  match ts with
  | [] => Py.Ok acc
  | t :: rest =>
      acc' ← update_benchmark mkt first_day acc t;
      update_benchmarks mkt first_day rest acc'
  end.

Definition update_daily_snapshot
    (mkt : Market) (st : Portfolio) : Py.result Portfolio :=
  let positions_value := fold_left (mark_to_market mkt) (positions st) 0 in
  let portfolio_value := current_cash st + positions_value in
  let first_day := (length (daily_snapshots st) =? 1)%nat in
  '(shares_map, benchmarks) ←
    update_benchmarks mkt first_day tickers (benchmark_shares st, ∅);
  let snapshot :=
    {| snap_date := today mkt;
       snap_portfolio_value := Py.round2 portfolio_value;
       snap_cash := Py.round2 (current_cash st);
       snap_positions_value := Py.round2 positions_value;
       snap_benchmarks := Py.round2 <$> benchmarks |} in
  Py.Ok {| start_date := start_date st;
           initial_capital := initial_capital st;
           current_cash := current_cash st;
           positions := positions st;
           closed_trades := closed_trades st;
           daily_snapshots := daily_snapshots st ++ [snapshot];
           benchmark_shares := shares_map;
           performance_stats := performance_stats st |}.

(** *** run_daily_update *)

(** What the scan over the tickers reports for one ticker. *)
Inductive ScanReport : Type :=
| TickerAtCap
| MaxPositionsReached
| NoOpportunity
| Traded (t : TradeReport).

Definition ticker_positions (st : Portfolio) (ticker : string) : nat :=
  length (List.filter (fun p => String.eqb (pos_ticker p) ticker) (positions st)).

(** The body of the loop over the tickers. *)
Definition scan_ticker
    (mkt : Market) (st : Portfolio) (total_open_positions : Z)
    (ticker : string) : Py.result (ScanReport * Portfolio) :=
  if (1 <=? ticker_positions st ticker)%nat then Py.Ok (TickerAtCap, st)
  else if (4 <=? total_open_positions)%Z then Py.Ok (MaxPositionsReached, st)
  else
    match find_option_opportunity mkt ticker with
    | None => Py.Ok (NoOpportunity, st)
    | Some opportunity =>
        '(report, st') ← execute_trade mkt st opportunity;
        Py.Ok (Traded report, st')
    end.

(** The loop over the tickers, with its [continue] and [break]; it
    returns the portfolio and what was reported for each ticker that was
    reached. *)
Fixpoint scan_tickers
    (mkt : Market) (ts : list string) (st : Portfolio)
    (total_open_positions : Z)
    : Py.result (Portfolio * list (string * ScanReport)) :=
  match ts with
  | [] => Py.Ok (st, [])
  | ticker :: rest =>
      '(report, st') ← scan_ticker mkt st total_open_positions ticker;
      match report with
      | MaxPositionsReached => Py.Ok (st', [(ticker, report)])
      | _ =>
          let total' :=
            match report with
            | Traded TradeExecuted => (total_open_positions + 1)%Z
            | _ => total_open_positions
            end in
          '(st'', log) ← scan_tickers mkt rest st' total';
          Py.Ok (st'', (ticker, report) :: log)
      end
  end.

Definition scan_for_opportunities
    (mkt : Market) (st : Portfolio)
    : Py.result (Portfolio * list (string * ScanReport)) :=
  let total_open_positions := Z.of_nat (length (positions st)) in
  if (4 <=? total_open_positions)%Z then Py.Ok (st, [])
  else scan_tickers mkt tickers st total_open_positions.

Definition run_daily_update
    (mkt : Market) (st : Portfolio) : Py.result Portfolio :=
  let st1 := update_positions mkt st in
  '(st2, _) ← scan_for_opportunities mkt st1;
  update_daily_snapshot mkt st2.

(** A sequence of daily runs, one market per day; a run that raises
    aborts the sequence. *)
Fixpoint run_days (mkts : list Market) (st : Portfolio)
    : Py.result Portfolio :=
  match mkts with
  | [] => Py.Ok st
  | mkt :: rest =>
      st' ← run_daily_update mkt st;
      run_days rest st'
  end.

End Trading.

(** * Properties *)

(** ** Comparisons and Python arithmetic *)

Lemma Qlt_bool_iff (a b : Q) : Py.Qlt_bool a b = true <-> a < b.
Proof.
  unfold Py.Qlt_bool. rewrite negb_true_iff.
  split; intros H.
  - apply Qnot_le_lt. intros Hle. apply Qle_bool_iff in Hle. congruence.
  - destruct (Qle_bool b a) eqn:E; [|reflexivity].
    apply Qle_bool_iff in E. exfalso. exact (Qlt_not_le _ _ H E).
Qed.

Lemma Qlt_bool_false_iff (a b : Q) : Py.Qlt_bool a b = false <-> b <= a.
Proof.
  unfold Py.Qlt_bool. rewrite negb_false_iff. apply Qle_bool_iff.
Qed.

Lemma py_max_Qmax (a b : Q) : Py.max a b == Qmax a b.
Proof.
  unfold Py.max. destruct (Py.Qlt_bool a b) eqn:E.
  - apply Qlt_bool_iff in E. symmetry. apply Qminmax.Q.max_r. lra.
  - apply Qlt_bool_false_iff in E. symmetry. apply Qminmax.Q.max_l. exact E.
Qed.

(** ** Pricing *)

Lemma black_scholes_degenerate_eq
    (L : NumLib) (S K T r0 sigma : Q) (option_type : string) :
  T <= 0 \/ sigma <= 0 ->
  black_scholes L S K T r0 sigma option_type
  = if String.eqb option_type "call"
    then Py.max (S - K) 0 else Py.max (K - S) 0.
Proof.
  intros H. unfold black_scholes.
  assert (E : Qle_bool T 0 || Qle_bool sigma 0 = true).
  { apply orb_true_iff. destruct H as [H|H]; [left|right];
      apply Qle_bool_iff; exact H. }
  rewrite E. reflexivity.
Qed.

(** C4. When [T <= 0] or [sigma <= 0], [black_scholes] returns the
    intrinsic value, [max(S - K, 0)] for a call and [max(K - S, 0)] for a
    put (any option type other than ['call']); the function is total, so
    nothing is raised. *)
Theorem black_scholes_intrinsic
    (L : NumLib) (S K T r0 sigma : Q) (option_type : string) :
  T <= 0 \/ sigma <= 0 ->
  (option_type = "call"%string ->
   black_scholes L S K T r0 sigma option_type == Qmax (S - K) 0)
  /\ (option_type <> "call"%string ->
      black_scholes L S K T r0 sigma option_type == Qmax (K - S) 0).
Proof.
  intros H. rewrite (black_scholes_degenerate_eq L S K T r0 sigma _ H).
  split; intros Hty.
  - subst option_type. simpl. apply py_max_Qmax.
  - apply String.eqb_neq in Hty. rewrite Hty. apply py_max_Qmax.
Qed.

(** *** A rational instance of the numeric library

    Truncated series and Newton iterations, rounded down to twelve
    decimals after every step.  It is used only to run the definitions on
    concrete inputs; the theorems hold for every [NumLib]. *)

Module Approx.

Definition chop (q : Q) : Q :=
  Qfloor (q * 1000000000000) # 1000000000000.

Definition positive (x : Q) : bool := Py.Qlt_bool 0 x.

(** [n] Newton steps for the square root of [x], starting from [y]. *)
Fixpoint newton (n : nat) (x y : Q) : Q :=
  match n with
  | O => y
  | S n' => newton n' x (chop ((y + x / y) / 2))
  end.

Definition sqrt (x : Q) : Q :=
  if positive x then newton 24 x (chop ((x + 1) / 2)) else 0.

(** The sum of [term * ratio k] steps: [acc] collects [weight k * term]. *)
Fixpoint series
    (n : nat) (k : Z) (ratio weight : Z -> Q) (term acc : Q) : Q :=
  match n with
  | O => acc
  | S n' =>
      series n' (k + 1)%Z ratio weight
        (chop (term * ratio k)) (chop (acc + weight k * term))
  end.

(** [1 + x + x^2/2! + ...] *)
Definition exp (x : Q) : Q :=
  series 40 0 (fun k => x / inject_Z (k + 1)) (fun _ => 1) 1 0.

(** [2 (z + z^3/3 + z^5/5 + ...)] with [z = (x - 1) / (x + 1)]. *)
Definition log (x : Q) : Q :=
  if positive x
  then
    let z := (x - 1) / (x + 1) in
    2 * series 60 0 (fun _ => z * z)
          (fun k => 1 / inject_Z (2 * k + 1)) z 0
  else 0.

(** [1/2 + (x - x^3/6 + x^5/40 - ...) / sqrt(2 pi)], cut off beyond six
    standard deviations. *)
Definition cdf (x : Q) : Q :=
  if Py.Qlt_bool x (- 6) then 0
  else if Py.Qlt_bool 6 x then 1
  else
    (1 # 2)
    + (398942280401 # 1000000000000)
      * series 120 0 (fun k => - (x * x) / inject_Z (2 * (k + 1)))
          (fun k => 1 / inject_Z (2 * k + 1)) x 0.

Definition sum (l : list Q) : Q :=
  fold_right (fun x acc => Qred (x + acc)) 0 l.

Definition mean (l : list Q) : Q := sum l / inject_Z (Z.of_nat (length l)).

(** The sample standard deviation (one degree of freedom removed). *)
Definition std (l : list Q) : Q :=
  let m := mean l in
  sqrt (chop (sum (map (fun x => (x - m) * (x - m)) l)
              / inject_Z (Z.of_nat (length l) - 1))).

End Approx.

Definition approx_lib : NumLib :=
  {| np_log := Approx.log;
     np_sqrt := Approx.sqrt;
     np_exp := Approx.exp;
     norm_cdf := Approx.cdf;
     series_std := Approx.std |}.

Lemma black_scholes_intrinsic_witness :
  black_scholes approx_lib 260 250 0 r (1 # 5) "call" == Qmax (260 - 250) 0.
Proof.
  apply (black_scholes_intrinsic approx_lib 260 250 0 r (1 # 5) "call").
  - left. apply Qle_refl.
  - reflexivity.
Defined.

(** ** Historical volatility *)

(** The last [n] elements of a list, as the words "the last [window]
    returns" read. *)
Definition last_n {A : Type} (n : nat) (l : list A) : list A :=
  rev (firstn n (rev l)).

Lemma last_n_skipn {A : Type} (n : nat) (l : list A) :
  last_n n l = skipn (length l - n) l.
Proof.
  unfold last_n. rewrite firstn_rev, rev_involutive. reflexivity.
Qed.

Lemma slice_from_last_n {A : Type} (w : Z) (l : list A) :
  (0 < w)%Z -> (w <= Z.of_nat (length l))%Z ->
  Py.slice_from (- w) l = last_n (Z.to_nat w) l.
Proof.
  intros Hpos Hle. unfold Py.slice_from.
  destruct (- w <? 0)%Z eqn:E.
  - rewrite last_n_skipn. f_equal. lia.
  - apply Z.ltb_ge in E. lia.
Qed.

Lemma pct_change_length (closes : list Q) :
  length (pct_change closes) = (length closes - 1)%nat.
Proof.
  induction closes as [|p rest IH]; [reflexivity|].
  destruct rest as [|q rest']; [reflexivity|].
  change (pct_change (p :: q :: rest'))
    with ((q / p - 1) :: pct_change (q :: rest')).
  simpl length in *. rewrite IH. lia.
Qed.

(** C8. With fewer than [window] day-over-day returns the estimator
    returns the constant 0.20 (a 5-point series with [window = 30] gives
    0.20); otherwise it returns the standard deviation of the last [window]
    returns times the square root of 252. *)
Theorem calculate_historical_vol_spec
    (L : NumLib) (history : Z -> list Q) (window : Z) :
  let returns := pct_change (history (window + 10)%Z) in
  ((Z.of_nat (length returns) < window)%Z ->
   calculate_historical_vol L history window = 1 # 5)
  /\ ((0 < window <= Z.of_nat (length returns))%Z ->
      calculate_historical_vol L history window
      = series_std L (last_n (Z.to_nat window) returns) * np_sqrt L 252)
  /\ calculate_historical_vol L (fun _ => [100; 101; 102; 101; 103]) 30
     = 1 # 5.
Proof.
  intros returns. unfold calculate_historical_vol. fold returns.
  repeat split.
  - intros H. apply Z.ltb_lt in H. rewrite H. reflexivity.
  - intros [Hpos Hle].
    assert (E : (Z.of_nat (length returns) <? window)%Z = false)
      by (apply Z.ltb_ge; exact Hle).
    rewrite E, slice_from_last_n by assumption. reflexivity.
Qed.

Lemma calculate_historical_vol_spec_witness :
  calculate_historical_vol approx_lib (fun _ => [100; 110; 99; 100]) 2
  = series_std approx_lib [(99 / 110 - 1); (100 / 99 - 1)]
    * np_sqrt approx_lib 252.
Proof.
  apply (calculate_historical_vol_spec approx_lib
           (fun _ => [100; 110; 99; 100]) 2).
  simpl. lia.
Defined.

(** ** Calendar arithmetic *)

Lemma Qfloor_ge_iff (z : Z) (x : Q) : inject_Z z <= x <-> (z <= Qfloor x)%Z.
Proof.
  split; intros H.
  - rewrite <- (Qfloor_Z z). apply Qfloor_resp_le. exact H.
  - apply Qle_trans with (inject_Z (Qfloor x)); [|apply Qfloor_le].
    rewrite <- Zle_Qle. exact H.
Qed.

Lemma Qfloor_minus_Z (x : Q) (d : Z) :
  Qfloor (x - inject_Z d) = (Qfloor x - d)%Z.
Proof.
  apply Z.le_antisymm.
  - assert (H : inject_Z (Qfloor (x - inject_Z d) + d) <= x).
    { rewrite inject_Z_plus.
      pose proof (Qfloor_le (x - inject_Z d)). lra. }
    apply Qfloor_ge_iff in H. lia.
  - apply Qfloor_ge_iff. unfold Z.sub.
    rewrite inject_Z_plus, inject_Z_opp.
    pose proof (Qfloor_le x). lra.
Qed.

Lemma expired_today (mkt : Market) (pos : Position) :
  expired mkt pos = (pos_expiration pos <=? today mkt)%Z.
Proof.
  unfold expired, today.
  destruct (pos_expiration pos <=? Qfloor (now mkt))%Z eqn:E.
  - apply Qle_bool_iff, Qfloor_ge_iff, Z.leb_le, E.
  - destruct (Qle_bool _ _) eqn:E'; [|reflexivity].
    apply Qle_bool_iff, Qfloor_ge_iff, Z.leb_le in E'. congruence.
Qed.

Lemma days_since_today (mkt : Market) (d : Z) :
  days_since mkt d = (today mkt - d)%Z.
Proof. apply Qfloor_minus_Z. Qed.

(** ** The ledger loop of [update_positions] *)

(** A position with its [days_held] refreshed, as every iteration of the
    loop leaves it. *)
Definition refresh (mkt : Market) (pos : Position) : Position :=
  set_days_held pos (days_since mkt (pos_entry_date pos)).

(** The record appended to [closed_trades] for an expired position. *)
Definition close_position (mkt : Market) (pos : Position) : Position :=
  let spot := price mkt (pos_ticker pos) in
  set_closed (refresh mkt pos) (today mkt) spot
    (intrinsic spot pos) (realized_pnl spot pos).

Lemma update_position_expired (mkt : Market) (led : Ledger) (pos : Position) :
  expired mkt pos = true ->
  update_position mkt led pos
  = {| led_cash := led_cash led + realized_pnl (price mkt (pos_ticker pos)) pos;
       led_closed := led_closed led ++ [close_position mkt pos];
       led_stats :=
         Some (record_trade
                 (match led_stats led with Some s => s | None => empty_stats end)
                 (realized_pnl (price mkt (pos_ticker pos)) pos));
       led_new_positions := led_new_positions led |}.
Proof.
  intros H. unfold update_position.
  change (expired mkt (set_days_held pos _)) with (expired mkt pos).
  rewrite H. reflexivity.
Qed.

Lemma update_position_open (mkt : Market) (led : Ledger) (pos : Position) :
  expired mkt pos = false ->
  update_position mkt led pos
  = {| led_cash := led_cash led;
       led_closed := led_closed led;
       led_stats := led_stats led;
       led_new_positions := led_new_positions led ++ [refresh mkt pos] |}.
Proof.
  intros H. unfold update_position.
  change (expired mkt (set_days_held pos _)) with (expired mkt pos).
  rewrite H. reflexivity.
Qed.

Lemma fold_new_positions (mkt : Market) (ps : list Position) (led : Ledger) :
  led_new_positions (fold_left (update_position mkt) ps led)
  = led_new_positions led
    ++ map (refresh mkt) (List.filter (fun p => negb (expired mkt p)) ps).
Proof.
  revert led. induction ps as [|p ps IH]; intros led; simpl.
  - symmetry. apply app_nil_r.
  - rewrite IH. destruct (expired mkt p) eqn:E; simpl.
    + rewrite update_position_expired by exact E. reflexivity.
    + rewrite update_position_open by exact E. simpl.
      rewrite <- app_assoc. reflexivity.
Qed.

Lemma fold_closed (mkt : Market) (ps : list Position) (led : Ledger) :
  led_closed (fold_left (update_position mkt) ps led)
  = led_closed led ++ map (close_position mkt) (List.filter (expired mkt) ps).
Proof.
  revert led. induction ps as [|p ps IH]; intros led; simpl.
  - symmetry. apply app_nil_r.
  - rewrite IH. destruct (expired mkt p) eqn:E; simpl.
    + rewrite update_position_expired by exact E. simpl.
      rewrite <- app_assoc. reflexivity.
    + rewrite update_position_open by exact E. reflexivity.
Qed.

Lemma fold_all_open (mkt : Market) (ps : list Position) (led : Ledger) :
  Forall (fun p => expired mkt p = false) ps ->
  fold_left (update_position mkt) ps led
  = {| led_cash := led_cash led;
       led_closed := led_closed led;
       led_stats := led_stats led;
       led_new_positions := led_new_positions led ++ map (refresh mkt) ps |}.
Proof.
  intros H. revert led. induction H as [|p ps Hp _ IH]; intros led; simpl.
  - rewrite app_nil_r. destruct led; reflexivity.
  - rewrite IH, update_position_open by exact Hp. simpl.
    rewrite <- app_assoc. reflexivity.
Qed.

Lemma update_positions_positions (mkt : Market) (st : Portfolio) :
  positions (update_positions mkt st)
  = map (refresh mkt) (List.filter (fun p => negb (expired mkt p)) (positions st)).
Proof. unfold update_positions. simpl. apply fold_new_positions. Qed.

Lemma update_positions_closed (mkt : Market) (st : Portfolio) :
  closed_trades (update_positions mkt st)
  = closed_trades st
    ++ map (close_position mkt) (List.filter (expired mkt) (positions st)).
Proof. unfold update_positions. simpl. apply fold_closed. Qed.

(** ** Examples: one short call on SPY *)

Definition quiet_market (t : Q) (spot : Q) : Market :=
  {| now := t;
     price := fun _ => spot;
     options := fun _ => [];
     option_chain := fun _ _ => [];
     history := fun _ _ => [] |}.

(** One contract sold at 0.50 on day 0, strike 250, expiring on day 30. *)
Definition short_call : Position :=
  {| pos_id := 0;
     pos_entry_date := 0;
     pos_ticker := "SPY";
     pos_action := SELL;
     pos_strike := 250;
     pos_expiration := 30;
     pos_contracts := 1;
     pos_entry_price := 1 # 2;
     pos_premium_collected := 50;
     pos_premium_paid := 0;
     pos_entry_stock_price := 230;
     pos_entry_iv := 3 # 10;
     pos_status := OPEN;
     pos_days_held := 0;
     pos_current_pnl := 0;
     pos_exit_date := None;
     pos_exit_stock_price := None;
     pos_intrinsic_value := None;
     pos_pnl := None |}.

Definition holding_short_call : Portfolio :=
  {| start_date := 0;
     initial_capital := 1000;
     current_cash := 1050;
     positions := [short_call];
     closed_trades := [];
     daily_snapshots := [];
     benchmark_shares := ∅;
     performance_stats := Some empty_stats |}.

(** ** Closing an expired short position *)

Lemma intrinsic_Qmax (spot : Q) (pos : Position) :
  intrinsic spot pos == Qmax (spot - pos_strike pos) 0.
Proof. apply py_max_Qmax. Qed.

(** C2. An expired SELL position is moved to the closed trades with
    realized P&L [premium_collected - max(spot - strike, 0) * contracts *
    100]: the whole premium when the spot is below the strike (premium 50,
    spot 240, strike 250 gives 50) and [premium_collected - (spot - strike)
    * contracts * 100] when it is above (premium 50, spot 260, strike 250,
    one contract gives -950). *)
Theorem closing_sell_pnl (mkt : Market) (st : Portfolio) (pos : Position) :
  In pos (positions st) ->
  pos_action pos = SELL ->
  expired mkt pos = true ->
  let spot := price mkt (pos_ticker pos) in
  let premium := pos_premium_collected pos in
  let n := inject_Z (pos_contracts pos) in
  (exists c v,
      In c (closed_trades (update_positions mkt st))
      /\ pos_id c = pos_id pos
      /\ pos_status c = CLOSED
      /\ pos_exit_stock_price c = Some spot
      /\ pos_pnl c = Some v
      /\ v == premium - Qmax (spot - pos_strike pos) 0 * n * 100
      /\ (spot < pos_strike pos -> v == premium)
      /\ (pos_strike pos < spot ->
          v == premium - (spot - pos_strike pos) * n * 100))
  /\ (exists v,
         map pos_pnl
           (closed_trades
              (update_positions (quiet_market 30 240) holding_short_call))
         = [Some v] /\ v == 50)
  /\ (exists v,
         map pos_pnl
           (closed_trades
              (update_positions (quiet_market 30 260) holding_short_call))
         = [Some v] /\ v == - 950).
Proof.
  intros Hin Hsell Hexp spot premium n. split; [|split].
  - exists (close_position mkt pos), (realized_pnl spot pos).
    split.
    { rewrite update_positions_closed. apply in_or_app. right.
      apply in_map, filter_In. split; assumption. }
    repeat split.
    + unfold realized_pnl. rewrite Hsell, intrinsic_Qmax. reflexivity.
    + intros Hlt. unfold realized_pnl, intrinsic. rewrite Hsell.
      rewrite py_max_Qmax, Q.max_r by lra. fold premium. ring.
    + intros Hlt. unfold realized_pnl, intrinsic. rewrite Hsell.
      rewrite py_max_Qmax, Q.max_l by lra. reflexivity.
  - eexists. split; [vm_compute; reflexivity|reflexivity].
  - eexists. split; [vm_compute; reflexivity|reflexivity].
Qed.

Lemma closing_sell_pnl_witness :
  exists c v,
    In c (closed_trades (update_positions (quiet_market 31 240)
                           holding_short_call))
    /\ pos_id c = 0%nat
    /\ pos_status c = CLOSED
    /\ pos_exit_stock_price c = Some 240
    /\ pos_pnl c = Some v
    /\ v == 50 - Qmax (240 - 250) 0 * 1 * 100
    /\ (240 < 250 -> v == 50)
    /\ (250 < 240 -> v == 50 - (240 - 250) * 1 * 100).
Proof.
  apply (closing_sell_pnl (quiet_market 31 240) holding_short_call short_call).
  - left. reflexivity.
  - reflexivity.
  - reflexivity.
Defined.

(** ** Running [update_positions] twice on the same date *)

Lemma refresh_same_day (mkt mkt' : Market) (pos : Position) :
  today mkt' = today mkt ->
  refresh mkt' (refresh mkt pos) = refresh mkt pos.
Proof.
  intros H. unfold refresh.
  change (pos_entry_date (set_days_held pos _)) with (pos_entry_date pos).
  rewrite !days_since_today, H. reflexivity.
Qed.

Lemma expired_same_day (mkt mkt' : Market) (pos : Position) :
  today mkt' = today mkt ->
  expired mkt' (refresh mkt pos) = expired mkt pos.
Proof.
  intros H. rewrite !expired_today, H. reflexivity.
Qed.

(** C9. Running [update_positions] a second time on the same date changes
    nothing: the positions closed by the first run are no longer among the
    open positions, and cash, closed trades and performance statistics are
    those the first run left. *)
Theorem update_positions_idempotent (mkt mkt' : Market) (st : Portfolio) :
  today mkt' = today mkt ->
  update_positions mkt' (update_positions mkt st) = update_positions mkt st.
Proof.
  intros Hday.
  set (st1 := update_positions mkt st).
  assert (Hopen : Forall (fun p => expired mkt' p = false) (positions st1)).
  { unfold st1. rewrite update_positions_positions.
    apply List.Forall_forall. intros q Hq.
    apply in_map_iff in Hq. destruct Hq as (p & <- & Hp).
    apply filter_In in Hp. destruct Hp as [_ Hp].
    rewrite expired_same_day by exact Hday.
    apply negb_true_iff. exact Hp. }
  assert (Hfix : map (refresh mkt') (positions st1) = positions st1).
  { unfold st1. rewrite update_positions_positions, map_map.
    apply map_ext. intros p. apply refresh_same_day. exact Hday. }
  clearbody st1. unfold update_positions.
  rewrite fold_all_open by exact Hopen.
  cbn [led_cash led_closed led_stats led_new_positions app].
  rewrite Hfix. destruct st1; reflexivity.
Qed.

Lemma update_positions_idempotent_witness :
  update_positions (quiet_market (61 # 2) 260)
    (update_positions (quiet_market 30 260) holding_short_call)
  = update_positions (quiet_market 30 260) holding_short_call.
Proof.
  apply (update_positions_idempotent (quiet_market 30 260)
           (quiet_market (61 # 2) 260) holding_short_call).
  reflexivity.
Defined.

(** ** The scanner *)

Section Scanner.

Variable L : NumLib.
Variables (ticker : string) (current_price : Q) (target_exp : Z).
Variables (T hist_vol : Q).

(** The two tests a liquid row passes before it can replace the best
    opportunity: the moneyness band and both edges. *)
Definition qualifies (row : Quote) : bool :=
  let theo_price :=
    black_scholes L current_price (row_strike row) T r hist_vol "call" in
  in_band (row_strike row / current_price)
  && Py.Qlt_bool (3 # 100) (quoted_iv hist_vol row - hist_vol)
  && Py.Qlt_bool (5 # 100) (price_edge_pct (market_mid row) theo_price).

Let step := analyze_option L ticker current_price target_exp T hist_vol.
Let build := make_opportunity L ticker current_price target_exp T hist_vol.

Lemma analyze_option_cases (acc : option Opportunity * Q) (row : Quote) :
  step acc row = acc
  \/ (qualifies row = true /\ step acc row = (Some (build row),
                                             market_mid row
                                             - opp_theoretical (build row))).
Proof.
  unfold step, analyze_option, qualifies.
  destruct (in_band _); simpl; [|left; reflexivity].
  destruct (Py.Qlt_bool (3 # 100) _); simpl; [|left; reflexivity].
  destruct (Py.Qlt_bool (5 # 100) _); simpl; [|left; reflexivity].
  destruct (Py.Qlt_bool (snd acc) _); [|left; reflexivity].
  right. split; reflexivity.
Qed.

Lemma analyze_option_skip (acc : option Opportunity * Q) (row : Quote) :
  qualifies row = false -> step acc row = acc.
Proof.
  intros H. destruct (analyze_option_cases acc row) as [E|[E _]];
    [exact E | congruence].
Qed.

(** Whatever the loop holds as best opportunity was built from a
    qualifying row it has seen. *)
Lemma analyze_fold_sound (rows : list Quote) (acc : option Opportunity * Q)
    (o : Opportunity) :
  fst (fold_left step rows acc) = Some o ->
  fst acc = Some o
  \/ exists row, In row rows /\ qualifies row = true /\ o = build row.
Proof.
  revert acc. induction rows as [|row rows IH]; intros acc H; simpl in H.
  - left. exact H.
  - destruct (IH _ H) as [Hacc | (row' & Hin & Hq & Ho)].
    + destruct (analyze_option_cases acc row) as [E | [Hq E]].
      * left. rewrite <- E. exact Hacc.
      * right. exists row. rewrite E in Hacc. simpl in Hacc.
        split; [left; reflexivity|]. split; [exact Hq|congruence].
    + right. exists row'. split; [right; exact Hin|]. split; assumption.
Qed.

Lemma analyze_fold_none (rows : list Quote) (acc : option Opportunity * Q) :
  (forall row, In row rows -> qualifies row = false) ->
  fold_left step rows acc = acc.
Proof.
  revert acc. induction rows as [|row rows IH]; intros acc H; simpl.
  - reflexivity.
  - rewrite analyze_option_skip by (apply H; left; reflexivity).
    apply IH. intros row' Hin. apply H. right. exact Hin.
Qed.

(** What passing the tests means in terms of the quoted numbers. *)
Lemma qualifies_spec (row : Quote) :
  qualifies row = true ->
  let theo_price :=
    black_scholes L current_price (row_strike row) T r hist_vol "call" in
  (105 # 100 <= row_strike row / current_price
   /\ row_strike row / current_price <= 115 # 100)
  /\ 3 # 100 < quoted_iv hist_vol row - hist_vol
  /\ 0 < theo_price
  /\ 5 # 100 < (market_mid row - theo_price) / theo_price.
Proof.
  unfold qualifies, in_band. intros H.
  set (theo_price :=
         black_scholes L current_price (row_strike row) T r hist_vol "call")
    in *.
  apply andb_true_iff in H. destruct H as [H Hpct].
  apply andb_true_iff in H. destruct H as [Hband Hiv].
  apply negb_true_iff, orb_false_iff in Hband. destruct Hband as [Hlo Hhi].
  apply Qlt_bool_false_iff in Hlo, Hhi.
  apply Qlt_bool_iff in Hiv, Hpct.
  unfold price_edge_pct in Hpct.
  destruct (Py.Qlt_bool 0 theo_price) eqn:Hpos.
  - apply Qlt_bool_iff in Hpos. repeat split; assumption.
  - exfalso. lra.
Qed.

End Scanner.

(** The time to expiration and the volatility the scanner works with. *)
Definition scan_T (mkt : Market) (target_exp : Z) : Q :=
  inject_Z (days_until mkt target_exp) / 365.

Definition scan_hv (L : NumLib) (mkt : Market) (ticker : string) : Q :=
  calculate_historical_vol L (history mkt ticker) 30.

Lemma liquid_spec (row : Quote) :
  liquid row = true <-> 10 < row_volume row /\ 1 # 10 < row_bid row.
Proof.
  unfold liquid. rewrite andb_true_iff, !Qlt_bool_iff. reflexivity.
Qed.

(** Every opportunity the scanner returns was built from a liquid row of
    the chain of the selected expiration that passes [qualifies]. *)
Lemma find_option_opportunity_sound
    (L : NumLib) (mkt : Market) (ticker : string) (opp : Opportunity) :
  find_option_opportunity L mkt ticker = Some opp ->
  exists target_exp row,
    select_expiration mkt (options mkt ticker) = Some target_exp
    /\ In row (option_chain mkt ticker target_exp)
    /\ liquid row = true
    /\ qualifies L (price mkt ticker) (scan_T mkt target_exp)
         (scan_hv L mkt ticker) row = true
    /\ opp = make_opportunity L ticker (price mkt ticker) target_exp
               (scan_T mkt target_exp) (scan_hv L mkt ticker) row.
Proof.
  unfold find_option_opportunity. intros H.
  destruct (length (options mkt ticker) =? 0)%nat; [discriminate|].
  destruct (select_expiration mkt (options mkt ticker)) as [target_exp|];
    [|discriminate].
  destruct (length _ =? 0)%nat; [discriminate|].
  apply analyze_fold_sound in H. destruct H as [H|(row & Hin & Hq & Ho)].
  - discriminate.
  - apply filter_In in Hin. destruct Hin as [Hin Hliq].
    exists target_exp, row. repeat split; assumption.
Qed.

(** *** Examples: one quoted call on a 500-dollar underlying *)

Definition one_call_market
    (iv : option Q) (closes : list Q) (bid ask : Q) : Market :=
  {| now := 1 # 2;
     price := fun _ => 500;
     options := fun _ => [10; 31; 45]%Z;
     option_chain := fun _ _ =>
       [ {| row_strike := 550; row_bid := bid; row_ask := ask;
            row_volume := 100; row_iv := iv |} ];
     history := fun _ _ => closes |}.

(** Thirty-two closes that alternate between 100 and 103. *)
Definition choppy_closes : list Q :=
  flat_map (fun _ => [100; 103]) (seq 0 16).

(** C6. An opportunity returned by the scanner comes from a row of the
    selected chain with volume above 10 and bid above 0.10, has moneyness
    (strike / spot) within [1.05, 1.15], and exceeds both edge thresholds:
    implied minus historical volatility above 0.03, and (mid - theoretical) /
    theoretical above 0.05.  When no liquid row of the selected chain
    passes these tests the scanner returns [None]. *)
Theorem scanner_thresholds (L : NumLib) (mkt : Market) (ticker : string) :
  (forall opp,
      find_option_opportunity L mkt ticker = Some opp ->
      exists target_exp row,
        In row (option_chain mkt ticker target_exp)
        /\ opp_expiration opp = target_exp
        /\ opp_strike opp = row_strike row
        /\ opp_price opp = row_bid row
        /\ opp_market_mid opp = (row_bid row + row_ask row) / 2
        /\ opp_moneyness opp = opp_strike opp / price mkt ticker
        /\ opp_iv_edge opp = opp_iv opp - opp_hv opp
        /\ opp_price_edge_pct opp
           = (opp_market_mid opp - opp_theoretical opp) / opp_theoretical opp
        /\ (10 < row_volume row /\ 1 # 10 < opp_price opp)
        /\ (105 # 100 <= opp_moneyness opp /\ opp_moneyness opp <= 115 # 100)
        /\ 3 # 100 < opp_iv_edge opp
        /\ 5 # 100 < opp_price_edge_pct opp)
  /\ ((forall target_exp row,
          select_expiration mkt (options mkt ticker) = Some target_exp ->
          In row (option_chain mkt ticker target_exp) ->
          liquid row = true ->
          qualifies L (price mkt ticker) (scan_T mkt target_exp)
            (scan_hv L mkt ticker) row = false) ->
      find_option_opportunity L mkt ticker = None).
Proof.
  split.
  - intros opp H.
    apply find_option_opportunity_sound in H.
    destruct H as (target_exp & row & _ & Hin & Hliq & Hq & ->).
    apply liquid_spec in Hliq. destruct Hliq as [Hvol Hbid].
    apply qualifies_spec in Hq.
    destruct Hq as ((Hlo & Hhi) & Hiv & Hpos & Hpct).
    exists target_exp, row. cbn [make_opportunity opp_expiration opp_strike
      opp_price opp_market_mid opp_moneyness opp_iv_edge opp_iv opp_hv
      opp_price_edge_pct opp_theoretical].
    assert (Epct :
      price_edge_pct (market_mid row)
        (black_scholes L (price mkt ticker) (row_strike row)
           (scan_T mkt target_exp) r (scan_hv L mkt ticker) "call")
      = (market_mid row
         - black_scholes L (price mkt ticker) (row_strike row)
             (scan_T mkt target_exp) r (scan_hv L mkt ticker) "call")
        / black_scholes L (price mkt ticker) (row_strike row)
            (scan_T mkt target_exp) r (scan_hv L mkt ticker) "call").
    { unfold price_edge_pct.
      apply Qlt_bool_iff in Hpos. rewrite Hpos. reflexivity. }
    rewrite Epct. repeat split; assumption || reflexivity.
  - intros Hnone. unfold find_option_opportunity.
    destruct (length (options mkt ticker) =? 0)%nat; [reflexivity|].
    destruct (select_expiration mkt (options mkt ticker)) as [target_exp|] eqn:E;
      [|reflexivity].
    destruct (length _ =? 0)%nat; [reflexivity|].
    rewrite analyze_fold_none; [reflexivity|].
    intros row Hin. apply filter_In in Hin. destruct Hin as [Hin Hliq].
    apply (Hnone target_exp row); [reflexivity| |]; assumption.
Qed.

Lemma scanner_thresholds_witness :
  exists opp,
    find_option_opportunity approx_lib
      (one_call_market (Some (3 # 10)) [] 20 22) "SPY" = Some opp
    /\ 1 # 10 < opp_price opp
    /\ 105 # 100 <= opp_moneyness opp <= 115 # 100
    /\ 3 # 100 < opp_iv_edge opp
    /\ 5 # 100 < opp_price_edge_pct opp.
Proof.
  destruct (find_option_opportunity approx_lib
              (one_call_market (Some (3 # 10)) [] 20 22) "SPY")
    as [opp|] eqn:E.
  - exists opp. split; [reflexivity|].
    destruct (proj1 (scanner_thresholds approx_lib
                       (one_call_market (Some (3 # 10)) [] 20 22) "SPY")
                opp E)
      as (target_exp & row & Hin & _ & _ & _ & _ & _ & _ & _
          & (_ & Hbid) & Hband & Hiv & Hpct).
    repeat split; try assumption; apply Hband.
  - exfalso. revert E. vm_compute. discriminate.
Defined.

(** C10. A row without an implied volatility is given 1.1 times the
    historical volatility; its volatility edge is then a tenth of the
    historical volatility, so the row can pass the tests, and an opportunity
    can be built from it, only when the historical volatility is above
    0.30. *)
Theorem missing_iv_edge
    (L : NumLib) (mkt : Market) (ticker : string) (opp : Opportunity) :
  find_option_opportunity L mkt ticker = Some opp ->
  exists target_exp row,
    In row (option_chain mkt ticker target_exp)
    /\ opp_strike opp = row_strike row
    /\ opp_price opp = row_bid row
    /\ opp_hv opp = scan_hv L mkt ticker
    /\ opp_iv opp = quoted_iv (opp_hv opp) row
    /\ (row_iv row = None ->
        opp_iv opp = opp_hv opp * (11 # 10)
        /\ opp_iv_edge opp == (1 # 10) * opp_hv opp
        /\ (Py.Qlt_bool (3 # 100) (opp_iv_edge opp) = true
            <-> 3 # 100 < (1 # 10) * opp_hv opp)
        /\ 3 # 10 < opp_hv opp).
Proof.
  intros H.
  apply find_option_opportunity_sound in H.
  destruct H as (target_exp & row & _ & Hin & _ & Hq & ->).
  apply qualifies_spec in Hq. destruct Hq as (_ & Hiv & _).
  exists target_exp, row.
  cbn [make_opportunity opp_strike opp_price opp_hv opp_iv opp_iv_edge].
  repeat split; try assumption.
  - unfold quoted_iv. rewrite H. reflexivity.
  - unfold quoted_iv. rewrite H. ring.
  - rewrite Qlt_bool_iff. unfold quoted_iv. rewrite H. lra.
  - rewrite Qlt_bool_iff. unfold quoted_iv. rewrite H. lra.
  - unfold quoted_iv in Hiv. rewrite H in Hiv. lra.
Qed.

Lemma missing_iv_edge_witness :
  exists opp,
    find_option_opportunity approx_lib
      (one_call_market None choppy_closes 150 160) "SPY" = Some opp
    /\ opp_iv opp = opp_hv opp * (11 # 10)
    /\ 3 # 10 < opp_hv opp.
Proof.
  destruct (find_option_opportunity approx_lib
              (one_call_market None choppy_closes 150 160) "SPY")
    as [opp|] eqn:E.
  - exists opp. split; [reflexivity|].
    destruct (missing_iv_edge approx_lib
                (one_call_market None choppy_closes 150 160) "SPY" opp E)
      as (target_exp & row & Hin & _ & _ & _ & _ & Hnone).
    destruct Hin as [<- | []].
    destruct (Hnone eq_refl) as (Hiv & _ & _ & Hhv).
    split; assumption.
  - exfalso. revert E. vm_compute. discriminate.
Defined.

(** ** Volatility and the degenerate branch of [black_scholes] *)







(** ** The order of the rejection checks *)

Inductive Reason : Type :=
| Duplicate
| MaxPositions
| TickerCap
| Cash.

(** The premium of the sized trade, [contracts * premium_per_contract]. *)
Definition total_premium (opp : Opportunity) : Py.result Q :=
  contracts ← position_size opp;
  Py.Ok (inject_Z contracts * premium_per_contract opp).

(** Whether a reason for rejection holds of an opportunity, a portfolio and
    the running count of open positions. *)
Definition applies
    (st : Portfolio) (total_open_positions : Z) (opp : Opportunity)
    (reason : Reason) : bool :=
  match reason with
  | Duplicate => existsb (is_duplicate opp) (positions st)
  | MaxPositions => (4 <=? total_open_positions)%Z
  | TickerCap => (1 <=? ticker_positions st (opp_ticker opp))%nat
  | Cash =>
      match total_premium opp with
      | Py.Ok p => Py.Qlt_bool (current_cash st) p
      | Py.Raise _ => false
      end
  end.

(** The first reason of an order that applies. *)
Definition first_applicable
    (order : list Reason) (st : Portfolio) (total_open_positions : Z)
    (opp : Opportunity) : option Reason :=
  List.find (applies st total_open_positions opp) order.

(** The reason a report of the scan stands for, if it is a rejection. *)
Definition reported (report : ScanReport) : option Reason :=
  match report with
  | TickerAtCap => Some TickerCap
  | MaxPositionsReached => Some MaxPositions
  | Traded DuplicatePosition => Some Duplicate
  | Traded InsufficientCash => Some Cash
  | Traded TradeExecuted | NoOpportunity => None
  end.

(** The order as the specification words it, and the order in which
    [run_daily_update] and [execute_trade] test. *)
Definition claimed_order : list Reason := [Duplicate; MaxPositions; TickerCap; Cash].
Definition checked_order : list Reason := [TickerCap; MaxPositions; Duplicate; Cash].

Lemma find_option_opportunity_fields
    (L : NumLib) (mkt : Market) (ticker : string) (opp : Opportunity) :
  find_option_opportunity L mkt ticker = Some opp ->
  opp_ticker opp = ticker /\ opp_action opp = SELL /\ 1 # 10 < opp_price opp.
Proof.
  intros H. apply find_option_opportunity_sound in H.
  destruct H as (target_exp & row & _ & _ & Hliq & _ & ->).
  apply liquid_spec in Hliq. destruct Hliq as [_ Hbid].
  repeat split. exact Hbid.
Qed.

Lemma position_size_positive_price (opp : Opportunity) :
  0 < opp_price opp ->
  exists contracts, position_size opp = Py.Ok contracts /\ (1 <= contracts)%Z.
Proof.
  intros Hpos. unfold position_size, Py.div.
  destruct (Qeq_bool (premium_per_contract opp) 0) eqn:E.
  - apply Qeq_bool_iff in E. unfold premium_per_contract in E. exfalso. lra.
  - eexists. split; [reflexivity|]. apply Z.le_max_l.
Qed.

Lemma duplicate_same_ticker (st : Portfolio) (opp : Opportunity) :
  existsb (is_duplicate opp) (positions st) = true ->
  (1 <=? ticker_positions st (opp_ticker opp))%nat = true.
Proof.
  intros H. apply existsb_exists in H. destruct H as (pos & Hin & Hdup).
  unfold is_duplicate in Hdup.
  repeat (apply andb_true_iff in Hdup; destruct Hdup as [Hdup ?]).
  apply Nat.leb_le. unfold ticker_positions.
  assert (Hf : In pos (List.filter
                         (fun p => String.eqb (pos_ticker p) (opp_ticker opp))
                         (positions st)))
    by (apply filter_In; split; assumption).
  destruct (List.filter _ _); [destruct Hf | simpl; lia].
Qed.

(** A market that quotes the very call [short_call] is short of: SPY at
    230, strike 250, expiring on day 30. *)
Definition same_call_market : Market :=
  {| now := 1 # 2;
     price := fun _ => 230;
     options := fun _ => [30]%Z;
     option_chain := fun _ _ =>
       [ {| row_strike := 250; row_bid := 1 # 2; row_ask := 6 # 10;
            row_volume := 100; row_iv := Some (3 # 10) |} ];
     history := fun _ _ => [] |}.

(** With the position already open, the opportunity found for SPY is a
    duplicate, and the earliest reason of the claimed order is
    [Duplicate]; the run reports the ticker cap. *)
Lemma rejection_order_not_as_claimed :
  ~ (forall (L : NumLib) (mkt : Market) (st : Portfolio)
            (total_open_positions : Z) (ticker : string)
            (opp : Opportunity) (reason : Reason),
        find_option_opportunity L mkt ticker = Some opp ->
        first_applicable claimed_order st total_open_positions opp
        = Some reason ->
        exists report,
          scan_ticker L mkt st total_open_positions ticker
          = Py.Ok (report, st)
          /\ reported report = Some reason).
Proof.
  intros H.
  destruct (find_option_opportunity approx_lib same_call_market "SPY")
    as [opp|] eqn:E; [|revert E; vm_compute; discriminate].
  specialize (H approx_lib same_call_market holding_short_call 1%Z "SPY"%string
                opp Duplicate E).
  assert (Hfirst :
    first_applicable claimed_order holding_short_call 1 opp = Some Duplicate).
  { revert E. vm_compute. intros E. injection E as <-.
    vm_compute. reflexivity. }
  destruct (H Hfirst) as (report & Hscan & Hrep).
  revert Hscan Hrep. vm_compute. intros Hscan Hrep.
  injection Hscan as <-. discriminate Hrep.
Qed.

(** C3 (amended). During the scan the reasons are tested in the order:
    ticker at its cap of 1, portfolio at the maximum of 4 open positions
    (also tested once before the loop, where it skips every ticker), and
    then, for the opportunity found, duplicate and insufficient cash.  The
    report is the earliest reason of this order that applies, so a
    duplicate is always reported as the ticker cap; a rejection returns
    the portfolio unchanged, and without any reason the trade is executed
    and appended to the open positions. *)
Theorem rejection_order
    (L : NumLib) (mkt : Market) (st : Portfolio) (total_open_positions : Z)
    (ticker : string) (opp : Opportunity) :
  find_option_opportunity L mkt ticker = Some opp ->
  match first_applicable checked_order st total_open_positions opp with
  | Some reason =>
      exists report,
        scan_ticker L mkt st total_open_positions ticker = Py.Ok (report, st)
        /\ reported report = Some reason
  | None =>
      exists trade,
        scan_ticker L mkt st total_open_positions ticker
        = Py.Ok (Traded TradeExecuted,
                 open_position st trade
                   (inject_Z (pos_contracts trade) * premium_per_contract opp))
  end
  /\ (applies st total_open_positions opp Duplicate = true ->
      applies st total_open_positions opp TickerCap = true)
  /\ ((4 <= Z.of_nat (length (positions st)))%Z ->
      scan_for_opportunities L mkt st = Py.Ok (st, [])).
Proof.
  intros Hfind.
  destruct (find_option_opportunity_fields L mkt ticker opp Hfind)
    as (Hticker & _ & Hprice).
  destruct (position_size_positive_price opp) as (contracts & Hsize & _);
    [lra|].
  split; [|split].
  - unfold first_applicable, checked_order, applies, scan_ticker, total_premium.
    cbn [List.find]. rewrite Hticker, Hfind.
    destruct (1 <=? ticker_positions st ticker)%nat.
    { exists TickerAtCap. split; reflexivity. }
    destruct (4 <=? total_open_positions)%Z.
    { exists MaxPositionsReached. split; reflexivity. }
    unfold execute_trade.
    destruct (existsb (is_duplicate opp) (positions st)).
    { exists (Traded DuplicatePosition). split; reflexivity. }
    rewrite Hsize. cbn.
    destruct (Py.Qlt_bool (current_cash st) _).
    { exists (Traded InsufficientCash). split; reflexivity. }
    eexists (new_trade mkt st opp contracts _). reflexivity.
  - apply duplicate_same_ticker.
  - intros Hfull. unfold scan_for_opportunities.
    apply Z.leb_le in Hfull. rewrite Hfull. reflexivity.
Qed.

Lemma rejection_order_witness :
  exists opp,
    find_option_opportunity approx_lib same_call_market "SPY" = Some opp
    /\ exists report,
         scan_ticker approx_lib same_call_market holding_short_call 1 "SPY"
         = Py.Ok (report, holding_short_call)
         /\ reported report = Some TickerCap.
Proof.
  destruct (find_option_opportunity approx_lib same_call_market "SPY")
    as [opp|] eqn:E; [|exfalso; revert E; vm_compute; discriminate].
  exists opp. split; [reflexivity|].
  pose proof (proj1 (rejection_order approx_lib same_call_market
                       holding_short_call 1 "SPY" opp E)) as H.
  assert (Hfirst :
    first_applicable checked_order holding_short_call 1 opp = Some TickerCap).
  { revert E. vm_compute. intros E. injection E as <-.
    vm_compute. reflexivity. }
  rewrite Hfirst in H. exact H.
Defined.

(** ** Benchmark shares and snapshots *)

Lemma update_benchmark_first_day
    (mkt : Market) (m b : gmap string Q) (t : string) :
  update_benchmark mkt true (m, b) t
  = Py.Ok (<[ t := 250 / price mkt t ]> m,
           <[ t := 250 / price mkt t * price mkt t ]> b).
Proof.
  unfold update_benchmark. cbn [fst snd].
  rewrite lookup_insert_eq. reflexivity.
Qed.

Lemma update_benchmark_later
    (mkt : Market) (m b : gmap string Q) (t : string) (shares : Q) :
  m !! t = Some shares ->
  update_benchmark mkt false (m, b) t
  = Py.Ok (m, <[ t := shares * price mkt t ]> b).
Proof.
  intros H. unfold update_benchmark. cbn [fst snd]. rewrite H. reflexivity.
Qed.

Lemma update_benchmarks_first_day
    (mkt : Market) (ts : list string) (m b : gmap string Q) :
  exists m' b',
    update_benchmarks mkt true ts (m, b) = Py.Ok (m', b')
    /\ forall t,
         (In t ts ->
          m' !! t = Some (250 / price mkt t)
          /\ b' !! t = Some (250 / price mkt t * price mkt t))
         /\ (~ In t ts -> m' !! t = m !! t /\ b' !! t = b !! t).
Proof.
  revert m b. induction ts as [|t0 ts IH]; intros m b.
  - exists m, b. split; [reflexivity|]. intros t. split; [intros []|auto].
  - cbn [update_benchmarks]. rewrite update_benchmark_first_day.
    destruct (IH (<[ t0 := 250 / price mkt t0 ]> m)
                 (<[ t0 := 250 / price mkt t0 * price mkt t0 ]> b))
      as (m' & b' & Hrun & Hlook).
    exists m', b'. split; [exact Hrun|].
    intros t. destruct (Hlook t) as [Hin Hout].
    destruct (in_dec string_dec t ts) as [Hts|Hts].
    + split; [intros _; apply Hin, Hts|].
      intros Hn. exfalso. apply Hn. right. exact Hts.
    + destruct (Hout Hts) as [Hm Hb]. split.
      * intros [-> | Hts']; [|contradiction].
        rewrite Hm, Hb, !lookup_insert_eq. split; reflexivity.
      * intros Hn. rewrite Hm, Hb.
        assert (t0 <> t) by (intros ->; apply Hn; left; reflexivity).
        rewrite !lookup_insert_ne by assumption. split; reflexivity.
Qed.

Lemma update_benchmarks_later
    (mkt : Market) (ts : list string) (m b : gmap string Q) :
  (forall t, In t ts -> is_Some (m !! t)) ->
  exists b',
    update_benchmarks mkt false ts (m, b) = Py.Ok (m, b')
    /\ forall t,
         (In t ts ->
          forall shares, m !! t = Some shares ->
                         b' !! t = Some (shares * price mkt t))
         /\ (~ In t ts -> b' !! t = b !! t).
Proof.
  revert b. induction ts as [|t0 ts IH]; intros b Hkeys.
  - exists b. split; [reflexivity|]. intros t. split; [intros []|auto].
  - destruct (Hkeys t0 (or_introl eq_refl)) as [s0 Hs0].
    cbn [update_benchmarks]. rewrite (update_benchmark_later mkt m b t0 s0 Hs0).
    destruct (IH (<[ t0 := s0 * price mkt t0 ]> b)) as (b' & Hrun & Hlook).
    { intros t Ht. apply Hkeys. right. exact Ht. }
    exists b'. split; [exact Hrun|].
    intros t. destruct (Hlook t) as [Hin Hout].
    destruct (in_dec string_dec t ts) as [Hts|Hts].
    + split; [intros _; apply Hin, Hts|].
      intros Hn. exfalso. apply Hn. right. exact Hts.
    + split.
      * intros [-> | Hts']; [|contradiction].
        intros shares Hsh. rewrite (Hout Hts), lookup_insert_eq.
        congruence.
      * intros Hn. rewrite (Hout Hts).
        assert (t0 <> t) by (intros ->; apply Hn; left; reflexivity).
        rewrite lookup_insert_ne by assumption. reflexivity.
Qed.

(** The scan and the ledger leave snapshots and benchmark shares alone. *)
Definition same_benchmarks (st st' : Portfolio) : Prop :=
  daily_snapshots st' = daily_snapshots st
  /\ benchmark_shares st' = benchmark_shares st.

(** A snapshot leaves cash, positions and statistics alone. *)
Definition same_ledger (st st' : Portfolio) : Prop :=
  initial_capital st' = initial_capital st
  /\ current_cash st' = current_cash st
  /\ positions st' = positions st
  /\ closed_trades st' = closed_trades st
  /\ performance_stats st' = performance_stats st.

Lemma execute_trade_ok (mkt : Market) (st : Portfolio) (opp : Opportunity) :
  0 < opp_price opp ->
  exists report st',
    execute_trade mkt st opp = Py.Ok (report, st') /\ same_benchmarks st st'.
Proof.
  intros Hprice.
  destruct (position_size_positive_price opp Hprice) as (c & Hsize & _).
  unfold execute_trade.
  destruct (existsb _ _).
  { exists DuplicatePosition, st. repeat split. }
  rewrite Hsize. cbn.
  destruct (Py.Qlt_bool _ _).
  - exists InsufficientCash, st. repeat split.
  - eexists TradeExecuted, _. repeat split.
Qed.

Lemma scan_ticker_ok
    (L : NumLib) (mkt : Market) (st : Portfolio) (total : Z) (ticker : string) :
  exists report st',
    scan_ticker L mkt st total ticker = Py.Ok (report, st')
    /\ same_benchmarks st st'.
Proof.
  unfold scan_ticker.
  destruct (1 <=? _)%nat; [exists TickerAtCap, st; repeat split|].
  destruct (4 <=? _)%Z; [exists MaxPositionsReached, st; repeat split|].
  destruct (find_option_opportunity L mkt ticker) as [opp|] eqn:E;
    [|exists NoOpportunity, st; repeat split].
  apply find_option_opportunity_fields in E. destruct E as (_ & _ & Hprice).
  destruct (execute_trade_ok mkt st opp) as (report & st' & Hex & Hsame);
    [lra|].
  rewrite Hex. exists (Traded report), st'. split; [reflexivity|exact Hsame].
Qed.

Lemma scan_tickers_ok
    (L : NumLib) (mkt : Market) (ts : list string) (st : Portfolio) (total : Z) :
  exists st' log,
    scan_tickers L mkt ts st total = Py.Ok (st', log)
    /\ same_benchmarks st st'.
Proof.
  revert st total. induction ts as [|t ts IH]; intros st total.
  - exists st, []. repeat split.
  - cbn [scan_tickers].
    destruct (scan_ticker_ok L mkt st total t)
      as (report & st1 & Hscan & Hs1 & Hb1).
    rewrite Hscan. cbn.
    destruct report as [| | |trade];
      try (destruct (IH st1 total) as (st2 & log & -> & Hs2 & Hb2);
           eexists _, _; split; [reflexivity|];
           split; congruence).
    + eexists _, _. split; [reflexivity|]. split; assumption.
    + destruct trade;
        [destruct (IH st1 total) as (st2 & log & -> & Hs2 & Hb2)
        |destruct (IH st1 total) as (st2 & log & -> & Hs2 & Hb2)
        |destruct (IH st1 (total + 1)%Z) as (st2 & log & -> & Hs2 & Hb2)];
        (eexists _, _; split; [reflexivity|]; split; congruence).
Qed.

Lemma scan_for_opportunities_ok
    (L : NumLib) (mkt : Market) (st : Portfolio) :
  exists st' log,
    scan_for_opportunities L mkt st = Py.Ok (st', log)
    /\ same_benchmarks st st'.
Proof.
  unfold scan_for_opportunities.
  destruct (4 <=? _)%Z; [exists st, []; repeat split|].
  apply scan_tickers_ok.
Qed.

Lemma update_daily_snapshot_first_day
    (L : NumLib) (mkt : Market) (st : Portfolio) :
  length (daily_snapshots st) = 1%nat ->
  exists st' snapshot,
    update_daily_snapshot L mkt st = Py.Ok st'
    /\ same_ledger st st'
    /\ daily_snapshots st' = daily_snapshots st ++ [snapshot]
    /\ forall t, In t tickers ->
         benchmark_shares st' !! t = Some (250 / price mkt t)
         /\ snap_benchmarks snapshot !! t
            = Some (Py.round2 (250 / price mkt t * price mkt t)).
Proof.
  intros Hlen. unfold update_daily_snapshot. rewrite Hlen. cbn [Nat.eqb].
  destruct (update_benchmarks_first_day mkt tickers (benchmark_shares st) ∅)
    as (m' & b' & -> & Hlook).
  cbn. eexists _, _. split; [reflexivity|].
  split; [repeat split|]. split; [reflexivity|].
  intros t Ht. destruct (Hlook t) as [Hin _]. destruct (Hin Ht) as [Hm Hb].
  cbn. rewrite lookup_fmap, Hb. split; [exact Hm|reflexivity].
Qed.

Lemma update_daily_snapshot_later
    (L : NumLib) (mkt : Market) (st : Portfolio) :
  length (daily_snapshots st) <> 1%nat ->
  (forall t, In t tickers -> is_Some (benchmark_shares st !! t)) ->
  exists st' snapshot,
    update_daily_snapshot L mkt st = Py.Ok st'
    /\ same_ledger st st'
    /\ daily_snapshots st' = daily_snapshots st ++ [snapshot]
    /\ benchmark_shares st' = benchmark_shares st
    /\ forall t shares,
         In t tickers ->
         benchmark_shares st !! t = Some shares ->
         snap_benchmarks snapshot !! t
         = Some (Py.round2 (shares * price mkt t)).
Proof.
  intros Hlen Hkeys. unfold update_daily_snapshot.
  apply Nat.eqb_neq in Hlen. rewrite Hlen.
  destruct (update_benchmarks_later mkt tickers (benchmark_shares st) ∅ Hkeys)
    as (b' & -> & Hlook).
  cbn. eexists _, _. split; [reflexivity|].
  split; [repeat split|]. split; [reflexivity|]. split; [reflexivity|].
  intros t shares Ht Hsh. destruct (Hlook t) as [Hin _].
  cbn. rewrite lookup_fmap, (Hin Ht shares Hsh). reflexivity.
Qed.

Lemma run_daily_update_first_day
    (L : NumLib) (mkt : Market) (st : Portfolio) :
  length (daily_snapshots st) = 1%nat ->
  exists st' snapshot,
    run_daily_update L mkt st = Py.Ok st'
    /\ daily_snapshots st' = daily_snapshots st ++ [snapshot]
    /\ forall t, In t tickers ->
         benchmark_shares st' !! t = Some (250 / price mkt t)
         /\ snap_benchmarks snapshot !! t
            = Some (Py.round2 (250 / price mkt t * price mkt t)).
Proof.
  intros Hlen. unfold run_daily_update.
  destruct (scan_for_opportunities_ok L mkt (update_positions mkt st))
    as (st2 & log & -> & Hsnaps & Hshares).
  cbn in Hsnaps, Hshares. cbn.
  destruct (update_daily_snapshot_first_day L mkt st2)
    as (st' & snapshot & Hrun & _ & Happ & Hlook); [congruence|].
  exists st', snapshot. rewrite <- Hsnaps. auto.
Qed.

Lemma run_daily_update_later
    (L : NumLib) (mkt : Market) (st : Portfolio) :
  length (daily_snapshots st) <> 1%nat ->
  (forall t, In t tickers -> is_Some (benchmark_shares st !! t)) ->
  exists st' snapshot,
    run_daily_update L mkt st = Py.Ok st'
    /\ daily_snapshots st' = daily_snapshots st ++ [snapshot]
    /\ benchmark_shares st' = benchmark_shares st
    /\ forall t shares,
         In t tickers ->
         benchmark_shares st !! t = Some shares ->
         snap_benchmarks snapshot !! t
         = Some (Py.round2 (shares * price mkt t)).
Proof.
  intros Hlen Hkeys. unfold run_daily_update.
  destruct (scan_for_opportunities_ok L mkt (update_positions mkt st))
    as (st2 & log & -> & Hsnaps & Hshares).
  cbn in Hsnaps, Hshares. cbn.
  destruct (update_daily_snapshot_later L mkt st2)
    as (st' & snapshot & Hrun & _ & Happ & Hkeep & Hlook).
  { congruence. }
  { rewrite Hshares. exact Hkeys. }
  exists st', snapshot. rewrite <- Hsnaps, <- Hshares. auto.
Qed.

(** The benchmark entries of a snapshot taken with [shares] in [mkt]. *)
Definition benchmarks_of
    (shares : string -> Q) (mkt : Market) (snapshot : Snapshot) : Prop :=
  forall t, In t tickers ->
    snap_benchmarks snapshot !! t = Some (Py.round2 (shares t * price mkt t)).

Lemma run_days_later
    (L : NumLib) (shares : string -> Q) (mkts : list Market) (st : Portfolio) :
  (2 <= length (daily_snapshots st))%nat ->
  (forall t, In t tickers -> benchmark_shares st !! t = Some (shares t)) ->
  exists st' snapshots,
    run_days L mkts st = Py.Ok st'
    /\ daily_snapshots st' = daily_snapshots st ++ snapshots
    /\ benchmark_shares st' = benchmark_shares st
    /\ Forall2 (benchmarks_of shares) mkts snapshots.
Proof.
  revert st. induction mkts as [|mkt mkts IH]; intros st Hlen Hshares.
  - exists st, []. rewrite app_nil_r. repeat split. constructor.
  - cbn [run_days].
    destruct (run_daily_update_later L mkt st)
      as (st1 & snapshot & -> & Happ & Hkeep & Hlook).
    { lia. }
    { intros t Ht. rewrite (Hshares t Ht). eexists. reflexivity. }
    cbn.
    destruct (IH st1) as (st' & snapshots & Hrun & Happ' & Hkeep' & Hall).
    { rewrite Happ, length_app. simpl. lia. }
    { intros t Ht. rewrite Hkeep. apply Hshares, Ht. }
    exists st', (snapshot :: snapshots). split; [exact Hrun|].
    split; [rewrite Happ', Happ, <- app_assoc; reflexivity|].
    split; [congruence|].
    constructor; [|exact Hall].
    intros t Ht. apply Hlook; [exact Ht|apply Hshares, Ht].
Qed.

(** Creating the portfolio already sets shares, from the prices fetched
    then (250 when a fetch fails); the first run replaces them. *)
Lemma initialize_portfolio_shares (date : Z) (fetch : string -> option Q) :
  forall t, In t tickers ->
    benchmark_shares (initialize_portfolio date fetch) !! t
    = Some (250 / match fetch t with Some p => p | None => 250 end).
Proof.
  intros t Ht. unfold tickers in Ht. cbn [In] in Ht.
  destruct Ht as [<-|[<-|[<-|[<-|[]]]]]; reflexivity.
Qed.

(** After a fallback creation (shares 1) the first run at a price of 500
    replaces the shares by 1/2; and with shares 5/6 a price of 301 is
    recorded as 250.83, not as 5/6 of 301. *)
Lemma benchmark_shares_counterexample :
  (exists st' s0 s1,
      run_days approx_lib [quiet_market (1 # 2) 500]
        (initialize_portfolio 0 (fun _ => None)) = Py.Ok st'
      /\ benchmark_shares (initialize_portfolio 0 (fun _ => None)) !! "SPY"
         = Some s0
      /\ benchmark_shares st' !! "SPY" = Some s1
      /\ ~ s1 == s0)
  /\ (exists st' shares snapshot value,
         run_days approx_lib [quiet_market (1 # 2) 300; quiet_market (3 # 2) 301]
           (initialize_portfolio 0 (fun _ => Some 300)) = Py.Ok st'
         /\ benchmark_shares st' !! "SPY" = Some shares
         /\ nth_error (daily_snapshots st') 2 = Some snapshot
         /\ snap_benchmarks snapshot !! "SPY" = Some value
         /\ value == 25083 # 100
         /\ ~ value == shares * 301).
Proof.
  split.
  - eexists _, _, _. split; [vm_compute; reflexivity|].
    split; [vm_compute; reflexivity|]. split; [vm_compute; reflexivity|].
    vm_compute. discriminate.
  - eexists _, _, _, _. split; [vm_compute; reflexivity|].
    split; [vm_compute; reflexivity|]. split; [vm_compute; reflexivity|].
    split; [vm_compute; reflexivity|].
    split; vm_compute; [reflexivity|discriminate].
Qed.

(** From a fresh portfolio no run raises; the first run fixes the shares
    and every run appends a snapshot computed from them. *)
Lemma run_days_fresh
    (L : NumLib) (date : Z) (fetch : string -> option Q)
    (mkt1 : Market) (mkts : list Market) :
  exists st' snapshots,
    run_days L (mkt1 :: mkts) (initialize_portfolio date fetch) = Py.Ok st'
    /\ daily_snapshots st'
       = daily_snapshots (initialize_portfolio date fetch) ++ snapshots
    /\ (forall t, In t tickers ->
          benchmark_shares st' !! t = Some (250 / price mkt1 t))
    /\ Forall2 (benchmarks_of (fun t => 250 / price mkt1 t))
         (mkt1 :: mkts) snapshots.
Proof.
  set (st0 := initialize_portfolio date fetch).
  cbn [run_days].
  destruct (run_daily_update_first_day L mkt1 st0)
    as (st1 & snapshot & -> & Happ & Hlook); [reflexivity|].
  cbn.
  destruct (run_days_later L (fun t => 250 / price mkt1 t) mkts st1)
    as (st' & snapshots & Hrun & Happ' & Hkeep & Hall).
  { rewrite Happ, length_app. simpl. lia. }
  { intros t Ht. apply Hlook, Ht. }
  exists st', (snapshot :: snapshots). split; [exact Hrun|].
  split; [rewrite Happ', Happ, <- app_assoc; reflexivity|].
  split.
  - intros t Ht. rewrite Hkeep. apply Hlook, Ht.
  - constructor; [|exact Hall].
    intros t Ht. apply Hlook, Ht.
Qed.


(** C5 (amended). Creating the portfolio sets the share count of every
    tracked ticker from the price fetched then (250 when the fetch fails);
    the first daily run replaces it by 250 divided by the spot price of
    that run; no later run changes it; and every snapshot a run appends
    records, for each ticker, that share count times the spot price of its
    run, rounded to two decimals.  No run of the sequence raises. *)
Theorem benchmark_shares_fixed
    (L : NumLib) (date : Z) (fetch : string -> option Q)
    (mkt1 : Market) (mkts : list Market) :
  (forall t, In t tickers ->
     benchmark_shares (initialize_portfolio date fetch) !! t
     = Some (250 / match fetch t with Some p => p | None => 250 end))
  /\ exists st' snapshots,
       run_days L (mkt1 :: mkts) (initialize_portfolio date fetch) = Py.Ok st'
       /\ daily_snapshots st'
          = daily_snapshots (initialize_portfolio date fetch) ++ snapshots
       /\ (forall t, In t tickers ->
             benchmark_shares st' !! t = Some (250 / price mkt1 t))
       /\ Forall2
            (fun mkt snapshot =>
               forall t, In t tickers ->
                 snap_benchmarks snapshot !! t
                 = Some (Py.round2 (250 / price mkt1 t * price mkt t)))
            (mkt1 :: mkts) snapshots.
Proof.
  split.
  - apply initialize_portfolio_shares.
  - apply run_days_fresh.
Qed.

(** ** Cash against premiums and exit payouts *)

Definition sum_over (f : Position -> Q) (ps : list Position) : Q :=
  fold_right (fun p acc => f p + acc) 0 ps.

(** The exit payout of a closed position, [intrinsic * contracts * 100]. *)
Definition exit_payout (pos : Position) : Q :=
  match pos_intrinsic_value pos with
  | Some value => value * inject_Z (pos_contracts pos) * 100
  | None => 0
  end.

Definition if_action (a : Action) (f : Position -> Q) (pos : Position) : Q :=
  if Action_eqb (pos_action pos) a then f pos else 0.

(** Every position ever opened is either still open or among the closed
    trades. *)
Definition opened (st : Portfolio) : list Position :=
  closed_trades st ++ positions st.

(** The cash balance that the conservation law of the specification
    prescribes: initial capital, plus premiums collected on opened SELL
    positions, minus premiums paid on opened BUY positions, minus exit
    payouts of closed SELL positions, plus exit proceeds of closed BUY
    positions. *)
Definition conserved_cash (st : Portfolio) : Q :=
  initial_capital st
  + sum_over (if_action SELL pos_premium_collected) (opened st)
  - sum_over (if_action BUY pos_premium_paid) (opened st)
  - sum_over (if_action SELL exit_payout) (closed_trades st)
  + sum_over (if_action BUY exit_payout) (closed_trades st).

(** *** What the code does with the cash *)

Definition signed_premium (pos : Position) : Q :=
  if_action SELL pos_premium_collected pos - if_action BUY pos_premium_paid pos.

Definition signed_payout (pos : Position) : Q :=
  if_action BUY exit_payout pos - if_action SELL exit_payout pos.

(** The balance the code maintains: a closed trade contributes its premium
    twice, once from [execute_trade] and once inside the realized P&L. *)
Definition cash_law (st : Portfolio) : Prop :=
  current_cash st
  == initial_capital st
     + sum_over signed_premium (positions st)
     + sum_over (fun p => signed_premium p + signed_premium p + signed_payout p)
         (closed_trades st).

Definition pnl_at (mkt : Market) (pos : Position) : Q :=
  realized_pnl (price mkt (pos_ticker pos)) pos.

Lemma sum_over_app (f : Position -> Q) (a b : list Position) :
  sum_over f (a ++ b) == sum_over f a + sum_over f b.
Proof.
  induction a as [|p a IH]; simpl; [ring|]. rewrite IH. ring.
Qed.

Lemma sum_over_ext (f g : Position -> Q) (l : list Position) :
  (forall p, f p == g p) -> sum_over f l == sum_over g l.
Proof.
  intros H. induction l as [|p l IH]; simpl; [reflexivity|].
  rewrite IH, H. reflexivity.
Qed.

Lemma sum_over_map (f : Position -> Q) (h : Position -> Position)
    (l : list Position) :
  sum_over f (map h l) = sum_over (fun p => f (h p)) l.
Proof.
  induction l as [|p l IH]; simpl; [reflexivity|]. rewrite IH. reflexivity.
Qed.

Lemma sum_over_plus (f g : Position -> Q) (l : list Position) :
  sum_over (fun p => f p + g p) l == sum_over f l + sum_over g l.
Proof.
  induction l as [|p l IH]; simpl; [ring|]. rewrite IH. ring.
Qed.

Lemma sum_over_split (f : Position -> Q) (b : Position -> bool)
    (l : list Position) :
  sum_over f l
  == sum_over f (List.filter b l)
     + sum_over f (List.filter (fun p => negb (b p)) l).
Proof.
  induction l as [|p l IH]; simpl; [ring|].
  destruct (b p); simpl; rewrite IH; ring.
Qed.

Lemma pnl_at_closed (mkt : Market) (pos : Position) :
  pnl_at mkt pos
  == signed_premium pos + signed_payout (close_position mkt pos).
Proof.
  unfold pnl_at, realized_pnl, signed_premium, signed_payout, if_action,
    exit_payout.
  cbn [close_position set_closed refresh set_days_held pos_action
       pos_intrinsic_value pos_contracts].
  destruct (pos_action pos); cbn [Action_eqb]; ring.
Qed.

Lemma fold_cash (mkt : Market) (ps : list Position) (led : Ledger) :
  led_cash (fold_left (update_position mkt) ps led)
  == led_cash led + sum_over (pnl_at mkt) (List.filter (expired mkt) ps).
Proof.
  revert led. induction ps as [|p ps IH]; intros led; simpl; [ring|].
  rewrite IH. destruct (expired mkt p) eqn:E.
  - rewrite update_position_expired by exact E. simpl. unfold pnl_at. ring.
  - rewrite update_position_open by exact E. simpl. ring.
Qed.

Lemma update_positions_cash_law (mkt : Market) (st : Portfolio) :
  cash_law st -> cash_law (update_positions mkt st).
Proof.
  unfold cash_law. intros H.
  rewrite update_positions_positions, update_positions_closed.
  unfold update_positions.
  cbn [current_cash initial_capital].
  rewrite fold_cash. cbn [led_cash].
  rewrite sum_over_map, sum_over_app, sum_over_map, H.
  rewrite (sum_over_split signed_premium (expired mkt) (positions st)).
  rewrite (sum_over_ext
             (fun p => signed_premium (close_position mkt p)
                       + signed_premium (close_position mkt p)
                       + signed_payout (close_position mkt p))
             (fun p => signed_premium p + pnl_at mkt p)).
  2:{ intros p. rewrite pnl_at_closed.
      change (signed_premium (close_position mkt p)) with (signed_premium p).
      ring. }
  rewrite !sum_over_plus.
  change (fun p => signed_premium (refresh mkt p)) with signed_premium.
  ring.
Qed.

Lemma execute_trade_cash_law
    (mkt : Market) (st st' : Portfolio) (opp : Opportunity)
    (report : TradeReport) :
  execute_trade mkt st opp = Py.Ok (report, st') ->
  cash_law st -> cash_law st'.
Proof.
  unfold execute_trade. intros Hex Hlaw.
  destruct (existsb _ _); [injection Hex as _ <-; exact Hlaw|].
  destruct (position_size opp) as [contracts|e]; [|discriminate Hex].
  cbn in Hex.
  destruct (Py.Qlt_bool _ _); injection Hex as _ <-; [exact Hlaw|].
  unfold cash_law in *.
  cbn [open_position current_cash initial_capital positions closed_trades].
  rewrite sum_over_app. cbn [sum_over fold_right].
  unfold signed_premium at 2, if_action.
  cbn [new_trade pos_action pos_premium_collected pos_premium_paid].
  destruct (opp_action opp); cbn [Action_eqb]; rewrite Hlaw; ring.
Qed.

Lemma scan_ticker_cash_law
    (L : NumLib) (mkt : Market) (st st' : Portfolio) (total : Z)
    (ticker : string) (report : ScanReport) :
  scan_ticker L mkt st total ticker = Py.Ok (report, st') ->
  cash_law st -> cash_law st'.
Proof.
  unfold scan_ticker. intros Hscan Hlaw.
  destruct (1 <=? _)%nat; [injection Hscan as _ <-; exact Hlaw|].
  destruct (4 <=? _)%Z; [injection Hscan as _ <-; exact Hlaw|].
  destruct (find_option_opportunity L mkt ticker) as [opp|];
    [|injection Hscan as _ <-; exact Hlaw].
  destruct (execute_trade mkt st opp) as [[trade st1]|e] eqn:Hex;
    [|discriminate Hscan].
  cbn in Hscan. injection Hscan as _ <-.
  exact (execute_trade_cash_law mkt st st1 opp trade Hex Hlaw).
Qed.

Lemma scan_tickers_cash_law
    (L : NumLib) (mkt : Market) (ts : list string) (st st' : Portfolio)
    (total : Z) (log : list (string * ScanReport)) :
  scan_tickers L mkt ts st total = Py.Ok (st', log) ->
  cash_law st -> cash_law st'.
Proof.
  revert st total log. induction ts as [|t ts IH]; intros st total log Hrun Hlaw.
  - injection Hrun as <- _. exact Hlaw.
  - cbn [scan_tickers] in Hrun.
    destruct (scan_ticker L mkt st total t) as [[report st1]|e] eqn:Hscan;
      [|discriminate Hrun].
    pose proof (scan_ticker_cash_law L mkt st st1 total t report Hscan Hlaw)
      as Hlaw1.
    cbn in Hrun.
    destruct report as [| | |trade].
    + destruct (scan_tickers L mkt ts st1 total) as [[st2 log2]|e] eqn:Hrest;
        [|discriminate Hrun].
      cbn in Hrun. injection Hrun as <- _. exact (IH _ _ _ Hrest Hlaw1).
    + injection Hrun as <- _. exact Hlaw1.
    + destruct (scan_tickers L mkt ts st1 total) as [[st2 log2]|e] eqn:Hrest;
        [|discriminate Hrun].
      cbn in Hrun. injection Hrun as <- _. exact (IH _ _ _ Hrest Hlaw1).
    + destruct (scan_tickers L mkt ts st1 _) as [[st2 log2]|e] eqn:Hrest;
        [|discriminate Hrun].
      cbn in Hrun. injection Hrun as <- _. exact (IH _ _ _ Hrest Hlaw1).
Qed.

Lemma update_daily_snapshot_cash_law
    (L : NumLib) (mkt : Market) (st st' : Portfolio) :
  update_daily_snapshot L mkt st = Py.Ok st' ->
  cash_law st -> cash_law st'.
Proof.
  unfold update_daily_snapshot. intros Hrun Hlaw.
  destruct (update_benchmarks _ _ _ _) as [[m b]|e]; [|discriminate Hrun].
  injection Hrun as <-. exact Hlaw.
Qed.

Lemma run_daily_update_cash_law
    (L : NumLib) (mkt : Market) (st st' : Portfolio) :
  run_daily_update L mkt st = Py.Ok st' ->
  cash_law st -> cash_law st'.
Proof.
  unfold run_daily_update. intros Hrun Hlaw.
  apply (update_positions_cash_law mkt) in Hlaw.
  destruct (scan_for_opportunities L mkt (update_positions mkt st))
    as [[st2 log]|e] eqn:Hscan; [|discriminate Hrun].
  change (update_daily_snapshot L mkt st2 = Py.Ok st') in Hrun.
  apply (update_daily_snapshot_cash_law L mkt st2 st' Hrun).
  unfold scan_for_opportunities in Hscan.
  destruct (4 <=? _)%Z; [injection Hscan as <- _; exact Hlaw|].
  exact (scan_tickers_cash_law L mkt _ _ _ _ _ Hscan Hlaw).
Qed.

Lemma run_days_cash_law
    (L : NumLib) (mkts : list Market) (st st' : Portfolio) :
  run_days L mkts st = Py.Ok st' ->
  cash_law st -> cash_law st'.
Proof.
  revert st. induction mkts as [|mkt mkts IH]; intros st Hrun Hlaw.
  - injection Hrun as <-. exact Hlaw.
  - cbn [run_days] in Hrun.
    destruct (run_daily_update L mkt st) as [st1|e] eqn:Hday;
      [|discriminate Hrun].
    cbn in Hrun.
    exact (IH st1 Hrun (run_daily_update_cash_law L mkt st st1 Hday Hlaw)).
Qed.

Lemma sum_signed_premium (l : list Position) :
  sum_over signed_premium l
  == sum_over (if_action SELL pos_premium_collected) l
     - sum_over (if_action BUY pos_premium_paid) l.
Proof.
  induction l as [|p l IH]; simpl; [ring|].
  rewrite IH. unfold signed_premium. ring.
Qed.

Lemma sum_closed_terms (l : list Position) :
  sum_over (fun p => signed_premium p + signed_premium p + signed_payout p) l
  == sum_over signed_premium l + sum_over signed_premium l
     + sum_over (if_action BUY exit_payout) l
     - sum_over (if_action SELL exit_payout) l.
Proof.
  induction l as [|p l IH]; simpl; [ring|].
  rewrite IH. unfold signed_payout. ring.
Qed.

(** The balance of the code against the balance of the conservation law:
    they differ by the premiums of the closed trades. *)
Lemma cash_law_conserved (st : Portfolio) :
  cash_law st ->
  current_cash st
  == conserved_cash st + sum_over signed_premium (closed_trades st).
Proof.
  unfold cash_law, conserved_cash, opened. intros H.
  rewrite H, !sum_over_app, sum_closed_terms.
  rewrite (sum_signed_premium (positions st)).
  rewrite (sum_signed_premium (closed_trades st)).
  ring.
Qed.

Lemma initialize_portfolio_cash_law (date : Z) (fetch : string -> option Q) :
  cash_law (initialize_portfolio date fetch).
Proof. unfold cash_law. simpl. ring. Qed.

(** A market in which only SPY has listed options: one call, strike 250,
    expiring on day 30, quoted 0.50 / 0.60, with SPY at 230. *)
Definition spy_only_market : Market :=
  {| now := 1 # 2;
     price := fun _ => 230;
     options := fun t => if String.eqb t "SPY" then [30]%Z else [];
     option_chain := fun _ _ =>
       [ {| row_strike := 250; row_bid := 1 # 2; row_ask := 6 # 10;
            row_volume := 100; row_iv := Some (3 # 10) |} ];
     history := fun _ _ => [] |}.

(** C1. After any sequence of daily runs from a fresh portfolio the cash
    exceeds the balance of the conservation law by the premiums of the
    closed trades: a premium is credited when the position is opened and
    again, inside the P&L, when it is closed.  In two runs: the first sells
    one SPY call for a premium of 50 (cash 1050); the second, after
    expiration with SPY at 240, closes it worthless with a P&L of 50.  The
    cash ends at 1100, while premiums and payouts account for 1050. *)
Theorem cash_counts_premium_twice :
  (forall (L : NumLib) (date : Z) (fetch : string -> option Q)
          (mkts : list Market),
      exists st',
        run_days L mkts (initialize_portfolio date fetch) = Py.Ok st'
        /\ current_cash st'
           == conserved_cash st' + sum_over signed_premium (closed_trades st'))
  /\ exists st1 st2 trade,
       run_days approx_lib [spy_only_market]
         (initialize_portfolio 0 (fun _ => Some 230)) = Py.Ok st1
       /\ run_days approx_lib [quiet_market (61 # 2) 240] st1 = Py.Ok st2
       /\ current_cash st1 == 1050
       /\ conserved_cash st1 == 1050
       /\ positions st2 = []
       /\ closed_trades st2 = [trade]
       /\ pos_action trade = SELL
       /\ pos_premium_collected trade == 50
       /\ exit_payout trade == 0
       /\ current_cash st2 == 1100
       /\ conserved_cash st2 == 1050.
Proof.
  split.
  - intros L date fetch mkts.
    assert (Hok : exists st',
               run_days L mkts (initialize_portfolio date fetch) = Py.Ok st').
    { destruct mkts as [|mkt1 mkts]; [eexists; reflexivity|].
      destruct (run_days_fresh L date fetch mkt1 mkts) as (st' & _ & H & _).
      exists st'. exact H. }
    destruct Hok as (st' & Hrun). exists st'. split; [exact Hrun|].
    apply cash_law_conserved.
    apply (run_days_cash_law L mkts _ st' Hrun).
    apply initialize_portfolio_cash_law.
  - eexists _, _, _.
    split; [vm_compute; reflexivity|].
    split; [vm_compute; reflexivity|].
    repeat split; vm_compute; reflexivity.
Qed.

(** * Further properties of the code *)

(** ** The expiration the scanner selects *)






(** ** The opportunity the scanner keeps *)

Section BestEdge.

Variable L : NumLib.
Variables (ticker : string) (current_price : Q) (target_exp : Z).
Variables (T hist_vol : Q).

(** The dollar edge of a row, market mid minus theoretical price. *)
Definition row_edge (row : Quote) : Q :=
  market_mid row
  - black_scholes L current_price (row_strike row) T r hist_vol "call".

Let step := analyze_option L ticker current_price target_exp T hist_vol.
Let build := make_opportunity L ticker current_price target_exp T hist_vol.
Let passes := qualifies L current_price T hist_vol.

Lemma analyze_option_passing (acc : option Opportunity * Q) (row : Quote) :
  passes row = true ->
  step acc row
  = if Py.Qlt_bool (snd acc) (row_edge row)
    then (Some (build row), row_edge row) else acc.
Proof.
  unfold passes, qualifies, step, analyze_option. intros H.
  apply andb_true_iff in H. destruct H as [H Hpct].
  apply andb_true_iff in H. destruct H as [Hband Hiv].
  rewrite Hband. cbn [negb]. rewrite Hiv, Hpct. reflexivity.
Qed.

Lemma passing_edge_positive (row : Quote) :
  passes row = true -> 0 < row_edge row.
Proof.
  intros H. apply qualifies_spec in H. destruct H as (_ & _ & Hpos & Hpct).
  unfold row_edge.
  set (theo := black_scholes L current_price (row_strike row) T r hist_vol
                 "call") in *.
  assert (Hq : 0 < (market_mid row - theo) / theo) by lra.
  assert (Hmul : 0 < (market_mid row - theo) / theo * theo)
    by (apply Qmult_lt_0_compat; assumption).
  assert (Heq : (market_mid row - theo) / theo * theo == market_mid row - theo).
  { field. intros Hz. rewrite Hz in Hpos. exact (Qlt_irrefl 0 Hpos). }
  rewrite Heq in Hmul. exact Hmul.
Qed.

(** What the loop over the liquid rows holds after a list of them. *)
Definition best_state
    (seen : list Quote) (acc : option Opportunity * Q) : Prop :=
  match fst acc with
  | None =>
      snd acc = 0 /\ forall row, In row seen -> passes row = false
  | Some opp =>
      exists before row after,
        seen = before ++ row :: after
        /\ opp = build row
        /\ passes row = true
        /\ snd acc = row_edge row
        /\ (forall row', In row' before -> passes row' = true ->
                         row_edge row' < row_edge row)
        /\ (forall row', In row' after -> passes row' = true ->
                         row_edge row' <= row_edge row)
  end.

Lemma analyze_option_state
    (seen : list Quote) (acc : option Opportunity * Q) (row : Quote) :
  best_state seen acc -> best_state (seen ++ [row]) (step acc row).
Proof.
  intros Hstate. destruct (passes row) eqn:Hpass.
  - rewrite (analyze_option_passing acc row Hpass).
    unfold best_state in *. destruct acc as [[opp|] best_edge]; cbn [fst snd] in *.
    + destruct Hstate as (before & best & after & -> & -> & Hbest & -> & Hb & Ha).
      destruct (Py.Qlt_bool (row_edge best) (row_edge row)) eqn:Hlt;
        cbn [fst snd].
      * apply Qlt_bool_iff in Hlt.
        exists (before ++ best :: after), row, [].
        repeat split; try assumption; try reflexivity; [|intros row' []].
        intros row' Hin Hp. apply in_app_or in Hin.
        destruct Hin as [Hin|[<-|Hin]].
        -- apply Qlt_trans with (row_edge best); [apply Hb; assumption|exact Hlt].
        -- exact Hlt.
        -- apply Qle_lt_trans with (row_edge best);
             [apply Ha; assumption|exact Hlt].
      * apply Qlt_bool_false_iff in Hlt.
        exists before, best, (after ++ [row]).
        rewrite <- app_assoc. repeat split; try assumption; try reflexivity.
        intros row' Hin Hp. apply in_app_or in Hin.
        destruct Hin as [Hin|[<-|[]]]; [apply Ha; assumption|exact Hlt].
    + destruct Hstate as (-> & Hnone).
      pose proof (passing_edge_positive row Hpass) as Hpos.
      apply Qlt_bool_iff in Hpos. rewrite Hpos. cbn [fst snd].
      exists seen, row, [].
      repeat split; try assumption; try reflexivity; [|intros row' []].
      intros row' Hin Hp. rewrite (Hnone row' Hin) in Hp. discriminate Hp.
  - unfold step. rewrite analyze_option_skip by exact Hpass.
    unfold best_state in *. destruct (fst acc).
    + destruct Hstate as (before & best & after & -> & Hrest).
      exists before, best, (after ++ [row]).
      rewrite <- app_assoc. split; [reflexivity|].
      destruct Hrest as (Ho & Hbest & Hedge & Hb & Ha).
      repeat split; try assumption.
      intros row' Hin Hp. apply in_app_or in Hin.
      destruct Hin as [Hin|[<-|[]]]; [apply Ha; assumption|].
      rewrite Hpass in Hp. discriminate Hp.
    + destruct Hstate as (Hzero & Hnone). split; [exact Hzero|].
      intros row' Hin. apply in_app_or in Hin.
      destruct Hin as [Hin|[<-|[]]]; [apply Hnone, Hin|exact Hpass].
Qed.

Lemma analyze_fold_state (rows : list Quote) :
  best_state rows (fold_left step rows (None, 0)).
Proof.
  induction rows as [|row rows IH] using rev_ind.
  - split; [reflexivity|intros row []].
  - rewrite fold_left_app. apply analyze_option_state, IH.
Qed.

End BestEdge.

(** X2. Among the liquid rows of the selected chain that pass the band and
    edge tests, the scanner returns the one with the largest dollar edge
    (market mid minus theoretical price), the first such row when several
    tie; it returns nothing exactly when no liquid row of the selected
    chain passes the tests (or no expiration is selected). *)
Theorem scanner_best_edge (L : NumLib) (mkt : Market) (ticker : string) :
  match find_option_opportunity L mkt ticker with
  | Some opp =>
      let target_exp := opp_expiration opp in
      let edge :=
        row_edge L (price mkt ticker) (scan_T mkt target_exp)
          (scan_hv L mkt ticker) in
      let passes :=
        qualifies L (price mkt ticker) (scan_T mkt target_exp)
          (scan_hv L mkt ticker) in
      select_expiration mkt (options mkt ticker) = Some target_exp
      /\ exists before row after,
           List.filter liquid (option_chain mkt ticker target_exp)
           = before ++ row :: after
           /\ passes row = true
           /\ opp_strike opp = row_strike row
           /\ opp_price opp = row_bid row
           /\ opp_price_edge opp = edge row
           /\ (forall row', In row' before -> passes row' = true ->
                            edge row' < edge row)
           /\ (forall row', In row' after -> passes row' = true ->
                            edge row' <= edge row)
  | None =>
      forall target_exp row,
        select_expiration mkt (options mkt ticker) = Some target_exp ->
        In row (option_chain mkt ticker target_exp) ->
        liquid row = true ->
        qualifies L (price mkt ticker) (scan_T mkt target_exp)
          (scan_hv L mkt ticker) row = false
  end.
Proof.
  unfold find_option_opportunity.
  destruct (length (options mkt ticker) =? 0)%nat eqn:Hlen.
  { apply Nat.eqb_eq in Hlen.
    destruct (options mkt ticker); [|discriminate Hlen].
    intros target_exp row Hsel. discriminate Hsel. }
  destruct (select_expiration mkt (options mkt ticker)) as [target_exp|];
    [|intros target_exp row Hsel; discriminate Hsel].
  destruct (length (List.filter liquid (option_chain mkt ticker target_exp))
            =? 0)%nat eqn:Hliq.
  { apply Nat.eqb_eq in Hliq. intros target' row Hsel Hin Hl.
    injection Hsel as <-.
    assert (Hf : In row (List.filter liquid
                           (option_chain mkt ticker target_exp)))
      by (apply filter_In; split; assumption).
    destruct (List.filter liquid _); [destruct Hf|discriminate Hliq]. }
  pose proof (analyze_fold_state L ticker (price mkt ticker) target_exp
                (scan_T mkt target_exp) (scan_hv L mkt ticker)
                (List.filter liquid (option_chain mkt ticker target_exp)))
    as Hstate.
  unfold best_state in Hstate. fold (scan_T mkt target_exp) (scan_hv L mkt ticker).
  destruct (fst (fold_left _ _ _)) as [opp|].
  - destruct Hstate as (before & row & after & Hsplit & -> & Hpass & _ & Hb & Ha).
    cbn [make_opportunity opp_expiration opp_strike opp_price opp_price_edge].
    split; [reflexivity|].
    exists before, row, after. repeat split; assumption.
  - destruct Hstate as (_ & Hnone).
    intros target' row Hsel Hin Hl. injection Hsel as <-.
    apply Hnone, filter_In. split; assumption.
Qed.

(** ** Sizing and executing a trade *)

Lemma py_int_floor (q : Q) : 0 <= q -> Py.int q = Qfloor q.
Proof.
  intros H. unfold Py.int. destruct q as [n d]. cbn [Qnum Qden Qfloor].
  apply Z.quot_div_nonneg; [|reflexivity].
  unfold Qle in H. cbn in H. lia.
Qed.

Lemma premium_per_contract_nonzero (opp : Opportunity) :
  0 < opp_price opp -> Qeq_bool (premium_per_contract opp) 0 = false.
Proof.
  intros H. destruct (Qeq_bool _ _) eqn:E; [|reflexivity].
  apply Qeq_bool_iff in E. unfold premium_per_contract in E. exfalso. lra.
Qed.

(** X3. The position size is never below one contract.  For a price above
    0.05 it is exactly one contract, whose premium then exceeds the 2% of
    the allocation that the size is computed from; for a positive price of
    at most 0.05 it is the whole number of contracts that 2% of the
    allocation buys, and the premium stays within that amount. *)
Theorem position_size_regimes (opp : Opportunity) :
  0 < opp_price opp ->
  exists contracts premium,
    position_size opp = Py.Ok contracts
    /\ total_premium opp = Py.Ok premium
    /\ premium == inject_Z contracts * (opp_price opp * 100)
    /\ (1 <= contracts)%Z
    /\ (5 # 100 < opp_price opp ->
        contracts = 1%Z /\ allocation_per_ticker * (2 # 100) < premium)
    /\ (opp_price opp <= 5 # 100 ->
        contracts
        = Qfloor (allocation_per_ticker * (2 # 100) / (opp_price opp * 100))
        /\ premium <= allocation_per_ticker * (2 # 100)).
Proof.
  intros Hpos.
  pose proof (premium_per_contract_nonzero opp Hpos) as Hnz.
  set (q := allocation_per_ticker * (2 # 100) / premium_per_contract opp).
  assert (Hq : 0 <= q).
  { unfold q, premium_per_contract, allocation_per_ticker.
    apply Qle_shift_div_l; lra. }
  assert (Hsize : position_size opp = Py.Ok (Z.max 1 (Qfloor q))).
  { unfold position_size, Py.div. rewrite Hnz. cbn.
    fold q. rewrite py_int_floor by exact Hq. reflexivity. }
  exists (Z.max 1 (Qfloor q)), (inject_Z (Z.max 1 (Qfloor q))
                                * premium_per_contract opp).
  split; [exact Hsize|].
  split; [unfold total_premium; rewrite Hsize; reflexivity|].
  split; [reflexivity|]. split; [apply Z.le_max_l|].
  unfold premium_per_contract, allocation_per_ticker in *.
  split.
  - intros Hprice.
    assert (Hlt : q < 1).
    { unfold q. apply Qlt_shift_div_r; lra. }
    assert (Hfloor : (Qfloor q < 1)%Z).
    { apply Z.lt_nge. intros Hge. apply Qfloor_ge_iff in Hge.
      change (inject_Z 1) with 1 in Hge. lra. }
    replace (Z.max 1 (Qfloor q)) with 1%Z by lia.
    split; [reflexivity|]. change (inject_Z 1) with 1. lra.
  - intros Hprice.
    assert (Hge : 1 <= q).
    { unfold q. apply Qle_shift_div_l; lra. }
    assert (Hfloor : (1 <= Qfloor q)%Z).
    { apply Qfloor_ge_iff. exact Hge. }
    replace (Z.max 1 (Qfloor q)) with (Qfloor q) by lia.
    split; [reflexivity|].
    apply Qle_trans with (q * (opp_price opp * 100)).
    + apply Qmult_le_compat_r; [apply Qfloor_le|lra].
    + unfold q. apply Qle_lteq. right. field. lra.
Qed.

Definition half_dollar_call : Opportunity :=
  {| opp_ticker := "SPY";
     opp_action := SELL;
     opp_strike := 250;
     opp_expiration := 30;
     opp_price := 1 # 2;
     opp_market_mid := 55 # 100;
     opp_theoretical := 48 # 100;
     opp_iv := 3 # 10;
     opp_hv := 2 # 10;
     opp_iv_edge := 1 # 10;
     opp_price_edge := 7 # 100;
     opp_price_edge_pct := 7 # 48;
     opp_moneyness := 250 # 230;
     opp_current_stock_price := 230;
     opp_T := 29 # 365 |}.

Lemma position_size_regimes_witness :
  exists contracts premium,
    position_size half_dollar_call = Py.Ok contracts
    /\ total_premium half_dollar_call = Py.Ok premium
    /\ premium == inject_Z contracts * ((1 # 2) * 100)
    /\ (1 <= contracts)%Z
    /\ (5 # 100 < 1 # 2 ->
        contracts = 1%Z /\ allocation_per_ticker * (2 # 100) < premium)
    /\ (1 # 2 <= 5 # 100 ->
        contracts
        = Qfloor (allocation_per_ticker * (2 # 100) / ((1 # 2) * 100))
        /\ premium <= allocation_per_ticker * (2 # 100)).
Proof.
  apply (position_size_regimes half_dollar_call). reflexivity.
Defined.

Lemma new_trade_is_duplicate
    (mkt : Market) (st : Portfolio) (opp opp' : Opportunity)
    (contracts : Z) (premium : Q) :
  opp_ticker opp' = opp_ticker opp ->
  opp_strike opp' == opp_strike opp ->
  opp_expiration opp' = opp_expiration opp ->
  opp_action opp' = opp_action opp ->
  is_duplicate opp' (new_trade mkt st opp contracts premium) = true.
Proof.
  intros Ht Hs He Ha. unfold is_duplicate.
  cbn [new_trade pos_ticker pos_strike pos_expiration pos_action].
  rewrite Ht, He, Ha, String.eqb_refl, Z.eqb_refl.
  assert (Hq : Qeq_bool (opp_strike opp) (opp_strike opp') = true)
    by (apply Qeq_bool_iff; symmetry; exact Hs).
  rewrite Hq. destruct (opp_action opp); reflexivity.
Qed.

(** X4. Once a trade is executed, an opportunity with the same ticker,
    strike, expiration and side is rejected as a duplicate, in any market
    and whatever the cash, and the portfolio is returned unchanged. *)
Theorem execute_trade_rejects_repeat
    (mkt mkt' : Market) (st st' : Portfolio) (opp opp' : Opportunity) :
  execute_trade mkt st opp = Py.Ok (TradeExecuted, st') ->
  opp_ticker opp' = opp_ticker opp ->
  opp_strike opp' == opp_strike opp ->
  opp_expiration opp' = opp_expiration opp ->
  opp_action opp' = opp_action opp ->
  execute_trade mkt' st' opp' = Py.Ok (DuplicatePosition, st').
Proof.
  unfold execute_trade at 1. intros Hex Ht Hs He Ha.
  destruct (existsb (is_duplicate opp) (positions st)); [discriminate Hex|].
  destruct (position_size opp) as [contracts|e]; [|discriminate Hex].
  cbn in Hex.
  destruct (Py.Qlt_bool _ _); [discriminate Hex|].
  injection Hex as <-.
  unfold execute_trade. cbn [open_position positions].
  rewrite existsb_app. cbn [existsb].
  rewrite (new_trade_is_duplicate mkt st opp opp' _ _ Ht Hs He Ha).
  rewrite orb_true_r. reflexivity.
Qed.

Lemma execute_trade_rejects_repeat_witness :
  exists st',
    execute_trade (quiet_market (1 # 2) 230)
      (initialize_portfolio 0 (fun _ => None)) half_dollar_call
    = Py.Ok (TradeExecuted, st')
    /\ execute_trade (quiet_market 3 240) st' half_dollar_call
       = Py.Ok (DuplicatePosition, st').
Proof.
  destruct (execute_trade (quiet_market (1 # 2) 230)
              (initialize_portfolio 0 (fun _ => None)) half_dollar_call)
    as [[report st']|e] eqn:E;
    [|exfalso; revert E; vm_compute; discriminate].
  assert (Hreport : report = TradeExecuted).
  { revert E. vm_compute. intros E. injection E as <- _. reflexivity. }
  subst report. exists st'. split; [reflexivity|].
  apply (execute_trade_rejects_repeat (quiet_market (1 # 2) 230)
           (quiet_market 3 240) _ st' half_dollar_call half_dollar_call E);
    reflexivity.
Defined.

(** An opportunity whose price is zero. *)
Definition unpriced_call : Opportunity :=
  {| opp_ticker := "SPY";
     opp_action := SELL;
     opp_strike := 250;
     opp_expiration := 30;
     opp_price := 0;
     opp_market_mid := 5 # 100;
     opp_theoretical := 4 # 100;
     opp_iv := 3 # 10;
     opp_hv := 2 # 10;
     opp_iv_edge := 1 # 10;
     opp_price_edge := 1 # 100;
     opp_price_edge_pct := 1 # 4;
     opp_moneyness := 250 # 230;
     opp_current_stock_price := 230;
     opp_T := 29 # 365 |}.

(** X5. When [execute_trade] raises.  An opportunity that an open position
    duplicates is rejected before the position size is computed, whatever
    its price, and the portfolio is unchanged.  Without a duplicate, a
    price of zero makes the computation of the position size raise.  A
    price above 0.10, which every opportunity of the scanner has, never
    makes [execute_trade] raise. *)
Theorem execute_trade_zero_price
    (mkt : Market) (st : Portfolio) (opp : Opportunity) :
  (existsb (is_duplicate opp) (positions st) = true ->
   execute_trade mkt st opp = Py.Ok (DuplicatePosition, st))
  /\ (existsb (is_duplicate opp) (positions st) = false ->
      opp_price opp == 0 ->
      exists e, execute_trade mkt st opp = Py.Raise e)
  /\ (1 # 10 < opp_price opp ->
      exists report st', execute_trade mkt st opp = Py.Ok (report, st')).
Proof.
  split; [|split].
  - intros Hdup. unfold execute_trade. rewrite Hdup. reflexivity.
  - intros Hdup Hzero.
    unfold execute_trade, position_size, Py.div, premium_per_contract.
    rewrite Hdup.
    assert (E : Qeq_bool (opp_price opp * 100) 0 = true).
    { apply Qeq_bool_iff. rewrite Hzero. reflexivity. }
    rewrite E. eexists. reflexivity.
  - intros Hprice.
    assert (Hpos : 0 < opp_price opp) by lra.
    destruct (execute_trade_ok mkt st opp Hpos) as (report & st' & Hex & _).
    exists report, st'. exact Hex.
Qed.

Lemma execute_trade_zero_price_witness :
  exists e,
    execute_trade (quiet_market (1 # 2) 230)
      (initialize_portfolio 0 (fun _ => None)) unpriced_call = Py.Raise e.
Proof.
  apply (proj1 (proj2 (execute_trade_zero_price (quiet_market (1 # 2) 230)
                         (initialize_portfolio 0 (fun _ => None))
                         unpriced_call)));
    reflexivity.
Defined.

(** ** What a daily run preserves *)

(** A property of the portfolio that [execute_trade] keeps is kept by the
    whole scan. *)
Lemma scan_tickers_preserves
    (P : Portfolio -> Prop) (L : NumLib) (mkt : Market) :
  (forall st opp report st',
      execute_trade mkt st opp = Py.Ok (report, st') -> P st -> P st') ->
  forall ts st total st' log,
    scan_tickers L mkt ts st total = Py.Ok (st', log) -> P st -> P st'.
Proof.
  intros Htrade ts. induction ts as [|t ts IH]; intros st total st' log Hrun HP.
  - injection Hrun as <- _. exact HP.
  - cbn [scan_tickers] in Hrun.
    destruct (scan_ticker L mkt st total t) as [[report st1]|e] eqn:Hscan;
      [|discriminate Hrun].
    assert (HP1 : P st1).
    { unfold scan_ticker in Hscan.
      destruct (1 <=? _)%nat; [injection Hscan as _ <-; exact HP|].
      destruct (4 <=? _)%Z; [injection Hscan as _ <-; exact HP|].
      destruct (find_option_opportunity L mkt t) as [opp|];
        [|injection Hscan as _ <-; exact HP].
      destruct (execute_trade mkt st opp) as [[trade st2]|e] eqn:Hex;
        [|discriminate Hscan].
      cbn in Hscan. injection Hscan as _ <-.
      exact (Htrade st opp trade st2 Hex HP). }
    cbn in Hrun.
    destruct report as [| | |trade];
      try (injection Hrun as <- _; exact HP1);
      (destruct (scan_tickers L mkt ts st1 _) as [[st2 log2]|e] eqn:Hrest;
       [|discriminate Hrun];
       cbn in Hrun; injection Hrun as <- _; exact (IH _ _ _ _ Hrest HP1)).
Qed.

(** A property kept by the three steps of a run is kept by a sequence of
    runs. *)
Lemma run_days_preserves (P : Portfolio -> Prop) (L : NumLib) :
  (forall mkt st, P st -> P (update_positions mkt st)) ->
  (forall mkt st opp report st',
      execute_trade mkt st opp = Py.Ok (report, st') -> P st -> P st') ->
  (forall mkt st st',
      update_daily_snapshot L mkt st = Py.Ok st' -> P st -> P st') ->
  forall mkts st st',
    run_days L mkts st = Py.Ok st' -> P st -> P st'.
Proof.
  intros Hupdate Htrade Hsnap mkts.
  induction mkts as [|mkt mkts IH]; intros st st' Hrun HP.
  - injection Hrun as <-. exact HP.
  - cbn [run_days] in Hrun.
    destruct (run_daily_update L mkt st) as [st1|e] eqn:Hday;
      [|discriminate Hrun].
    cbn in Hrun. apply (IH st1 st' Hrun).
    unfold run_daily_update in Hday.
    destruct (scan_for_opportunities L mkt (update_positions mkt st))
      as [[st2 log]|e] eqn:Hscan; [|discriminate Hday].
    change (update_daily_snapshot L mkt st2 = Py.Ok st1) in Hday.
    apply (Hsnap mkt st2 st1 Hday).
    unfold scan_for_opportunities in Hscan.
    destruct (4 <=? _)%Z; [injection Hscan as <- _; apply Hupdate, HP|].
    apply (scan_tickers_preserves P L mkt (Htrade mkt) _ _ _ _ _ Hscan).
    apply Hupdate, HP.
Qed.

Lemma run_days_fresh_ok
    (L : NumLib) (date : Z) (fetch : string -> option Q) (mkts : list Market) :
  exists st', run_days L mkts (initialize_portfolio date fetch) = Py.Ok st'.
Proof.
  destruct mkts as [|mkt1 mkts]; [eexists; reflexivity|].
  destruct (run_days_fresh L date fetch mkt1 mkts) as (st' & _ & H & _).
  exists st'. exact H.
Qed.

Lemma execute_trade_history
    (mkt : Market) (st st' : Portfolio) (opp : Opportunity)
    (report : TradeReport) :
  execute_trade mkt st opp = Py.Ok (report, st') ->
  closed_trades st' = closed_trades st
  /\ performance_stats st' = performance_stats st.
Proof.
  unfold execute_trade. intros Hex.
  destruct (existsb _ _); [injection Hex as _ <-; split; reflexivity|].
  destruct (position_size opp) as [contracts|e]; [|discriminate Hex].
  cbn in Hex.
  destruct (Py.Qlt_bool _ _); injection Hex as _ <-; split; reflexivity.
Qed.

Lemma update_daily_snapshot_ledger
    (L : NumLib) (mkt : Market) (st st' : Portfolio) :
  update_daily_snapshot L mkt st = Py.Ok st' -> same_ledger st st'.
Proof.
  unfold update_daily_snapshot. intros Hrun.
  destruct (update_benchmarks _ _ _ _) as [[m b]|e]; [|discriminate Hrun].
  injection Hrun as <-. repeat split.
Qed.

(** ** Performance statistics *)

(** The statistics obtained by recording a list of realized P&Ls in
    order. *)
Definition stats_of (pnls : list Q) : Stats :=
  fold_left record_trade pnls empty_stats.

Definition count_if (f : Q -> bool) (l : list Q) : Z :=
  Z.of_nat (length (List.filter f l)).

Definition sum_list (l : list Q) : Q := fold_right Qplus 0 l.

(** The statistics are those of the P&Ls of the closed trades. *)
Definition stats_derived (st : Portfolio) : Prop :=
  exists pnls,
    map pos_pnl (closed_trades st) = map Some pnls
    /\ performance_stats st = Some (stats_of pnls).

Lemma stats_of_snoc (pnls : list Q) (pnl : Q) :
  stats_of (pnls ++ [pnl]) = record_trade (stats_of pnls) pnl.
Proof. unfold stats_of. rewrite fold_left_app. reflexivity. Qed.

Lemma update_position_stats_derived
    (mkt : Market) (led : Ledger) (pos : Position) :
  (exists pnls, map pos_pnl (led_closed led) = map Some pnls
                /\ led_stats led = Some (stats_of pnls)) ->
  exists pnls,
    map pos_pnl (led_closed (update_position mkt led pos)) = map Some pnls
    /\ led_stats (update_position mkt led pos) = Some (stats_of pnls).
Proof.
  intros (pnls & Hclosed & Hstats).
  destruct (expired mkt pos) eqn:E.
  - rewrite update_position_expired by exact E. cbn [led_closed led_stats].
    exists (pnls ++ [realized_pnl (price mkt (pos_ticker pos)) pos]).
    rewrite !map_app, Hclosed, Hstats, stats_of_snoc. split; reflexivity.
  - rewrite update_position_open by exact E. cbn [led_closed led_stats].
    exists pnls. split; assumption.
Qed.

Lemma update_positions_stats_derived (mkt : Market) (st : Portfolio) :
  stats_derived st -> stats_derived (update_positions mkt st).
Proof.
  unfold stats_derived, update_positions.
  cbn [closed_trades performance_stats].
  set (led0 := {| led_cash := current_cash st;
                  led_closed := closed_trades st;
                  led_stats := performance_stats st;
                  led_new_positions := [] |}).
  change (closed_trades st) with (led_closed led0).
  change (performance_stats st) with (led_stats led0).
  generalize led0. clear led0.
  induction (positions st) as [|pos ps IH]; intros led H; [exact H|].
  cbn [fold_left]. apply IH, update_position_stats_derived, H.
Qed.

Lemma stats_of_facts (pnls : list Q) :
  let s := stats_of pnls in
  total_trades s = Z.of_nat (length pnls)
  /\ winning_trades s = count_if (fun p => Py.Qlt_bool 0 p) pnls
  /\ losing_trades s = count_if (fun p => negb (Py.Qlt_bool 0 p)) pnls
  /\ total_pnl s == sum_list pnls
  /\ largest_loss s <= 0 /\ 0 <= largest_win s
  /\ forall p, In p pnls -> largest_loss s <= p /\ p <= largest_win s.
Proof.
  induction pnls as [|pnl pnls IH] using rev_ind.
  - cbn. repeat split; try reflexivity; try apply Qle_refl; contradiction.
  - cbn zeta in *. rewrite stats_of_snoc.
    destruct IH as (Ht & Hw & Hl & Hsum & Hlo & Hhi & Hall).
    assert (Hsum' : sum_list (pnls ++ [pnl]) == sum_list pnls + pnl).
    { clear. induction pnls as [|x l IH]; cbn; [ring|].
      unfold sum_list in IH. rewrite IH. ring. }
    unfold count_if in *. rewrite !List.filter_app, !List.length_app.
    cbn [List.filter]. unfold record_trade.
    destruct (Py.Qlt_bool 0 pnl) eqn:Hpos;
      cbn [negb length total_trades winning_trades losing_trades total_pnl
           largest_win largest_loss].
    + apply Qlt_bool_iff in Hpos.
      split; [lia|]. split; [lia|]. split; [lia|].
      split; [rewrite Hsum', Hsum; reflexivity|].
      split; [exact Hlo|].
      destruct (Py.Qlt_bool (largest_win (stats_of pnls)) pnl) eqn:Hnew.
      * apply Qlt_bool_iff in Hnew. split; [lra|].
        intros p Hin. apply in_app_or in Hin.
        destruct Hin as [Hin|[<-|[]]]; [|lra].
        destruct (Hall p Hin). split; lra.
      * apply Qlt_bool_false_iff in Hnew. split; [exact Hhi|].
        intros p Hin. apply in_app_or in Hin.
        destruct Hin as [Hin|[<-|[]]]; [apply Hall, Hin|lra].
    + apply Qlt_bool_false_iff in Hpos.
      split; [lia|]. split; [lia|]. split; [lia|].
      split; [rewrite Hsum', Hsum; reflexivity|].
      destruct (Py.Qlt_bool pnl (largest_loss (stats_of pnls))) eqn:Hnew.
      * apply Qlt_bool_iff in Hnew. split; [lra|]. split; [exact Hhi|].
        intros p Hin. apply in_app_or in Hin.
        destruct Hin as [Hin|[<-|[]]]; [|lra].
        destruct (Hall p Hin). split; lra.
      * apply Qlt_bool_false_iff in Hnew. split; [exact Hlo|].
        split; [exact Hhi|].
        intros p Hin. apply in_app_or in Hin.
        destruct Hin as [Hin|[<-|[]]]; [apply Hall, Hin|lra].
Qed.

Lemma run_days_stats_derived
    (L : NumLib) (mkts : list Market) (st st' : Portfolio) :
  run_days L mkts st = Py.Ok st' -> stats_derived st -> stats_derived st'.
Proof.
  apply (run_days_preserves stats_derived L).
  - apply update_positions_stats_derived.
  - intros mkt s opp report s' Hex.
    destruct (execute_trade_history mkt s s' opp report Hex) as [Hc Hs].
    unfold stats_derived. rewrite Hc, Hs. auto.
  - intros mkt s s' Hsnap.
    destruct (update_daily_snapshot_ledger L mkt s s' Hsnap)
      as (_ & _ & _ & Hc & Hs).
    unfold stats_derived. rewrite Hc, Hs. auto.
Qed.

(** X6. After any sequence of daily runs from a fresh portfolio the
    performance statistics are those of the closed trades: [total_trades]
    is their number, [winning_trades] counts the trades with a positive
    P&L and [losing_trades] the others (a P&L of zero counts as a loss),
    [total_pnl] is the sum of the P&Ls, and every P&L lies between
    [largest_loss], which is at most 0, and [largest_win], which is at
    least 0. *)
Theorem performance_stats_derived
    (L : NumLib) (date : Z) (fetch : string -> option Q) (mkts : list Market) :
  exists st' pnls s,
    run_days L mkts (initialize_portfolio date fetch) = Py.Ok st'
    /\ map pos_pnl (closed_trades st') = map Some pnls
    /\ performance_stats st' = Some s
    /\ total_trades s = Z.of_nat (length (closed_trades st'))
    /\ winning_trades s = count_if (fun p => Py.Qlt_bool 0 p) pnls
    /\ losing_trades s = count_if (fun p => Qle_bool p 0) pnls
    /\ (winning_trades s + losing_trades s = total_trades s)%Z
    /\ total_pnl s == sum_list pnls
    /\ largest_loss s <= 0 /\ 0 <= largest_win s
    /\ forall p, In p pnls -> largest_loss s <= p /\ p <= largest_win s.
Proof.
  destruct (run_days_fresh_ok L date fetch mkts) as (st' & Hrun).
  destruct (run_days_stats_derived L mkts _ st' Hrun) as (pnls & Hclosed & Hs).
  { exists []. split; reflexivity. }
  destruct (stats_of_facts pnls) as (Ht & Hw & Hl & Hsum & Hlo & Hhi & Hall).
  assert (Hlen : length (closed_trades st') = length pnls).
  { rewrite <- (length_map pos_pnl), Hclosed, length_map. reflexivity. }
  assert (Hl' : losing_trades (stats_of pnls)
                = count_if (fun p => Qle_bool p 0) pnls).
  { rewrite Hl. unfold count_if, Py.Qlt_bool. do 2 f_equal.
    apply List.filter_ext. intros p. apply negb_involutive. }
  exists st', pnls, (stats_of pnls).
  split; [exact Hrun|]. split; [exact Hclosed|]. split; [exact Hs|].
  split; [rewrite Hlen; exact Ht|]. split; [exact Hw|]. split; [exact Hl'|].
  split.
  { rewrite Hw, Hl, Ht. unfold count_if.
    rewrite <- Nat2Z.inj_add. f_equal.
    clear. induction pnls as [|p l IH]; [reflexivity|].
    cbn [List.filter]. destruct (Py.Qlt_bool 0 p); cbn [negb length]; lia. }
  split; [exact Hsum|]. split; [exact Hlo|]. split; [exact Hhi|exact Hall].
Qed.

(** ** Which positions a run closes *)

Lemma filter_lengths {A : Type} (f : A -> bool) (l : list A) :
  (length (List.filter (fun x => negb (f x)) l) + length (List.filter f l)
   = length l)%nat.
Proof.
  induction l as [|x l IH]; [reflexivity|].
  cbn [List.filter]. destruct (f x); cbn [negb length]; lia.
Qed.

(** X7. [update_positions] splits the open positions by calendar date
    alone: those expiring after today stay open, in their order, with
    [days_held] set to today minus the entry date; those expiring today or
    earlier are appended, in their order, to the closed trades, marked
    CLOSED with today as exit date.  No position is lost or duplicated and
    the trades closed before are untouched. *)
Theorem update_positions_by_date (mkt : Market) (st : Portfolio) :
  exists closed_now,
    closed_trades (update_positions mkt st) = closed_trades st ++ closed_now
    /\ map pos_id (positions (update_positions mkt st))
       = map pos_id
           (List.filter (fun p => (today mkt <? pos_expiration p)%Z)
              (positions st))
    /\ map pos_id closed_now
       = map pos_id
           (List.filter (fun p => (pos_expiration p <=? today mkt)%Z)
              (positions st))
    /\ (length (positions (update_positions mkt st)) + length closed_now
        = length (positions st))%nat
    /\ Forall (fun p => (today mkt < pos_expiration p)%Z
                        /\ pos_days_held p
                           = (today mkt - pos_entry_date p)%Z)
         (positions (update_positions mkt st))
    /\ Forall (fun c => pos_status c = CLOSED
                        /\ pos_exit_date c = Some (today mkt)
                        /\ (pos_expiration c <= today mkt)%Z
                        /\ pos_days_held c
                           = (today mkt - pos_entry_date c)%Z)
         closed_now.
Proof.
  exists (map (close_position mkt) (List.filter (expired mkt) (positions st))).
  rewrite update_positions_positions, update_positions_closed.
  assert (Hopen : forall l,
             List.filter (fun p => negb (expired mkt p)) l
             = List.filter (fun p => (today mkt <? pos_expiration p)%Z) l).
  { intros l. apply List.filter_ext. intros p.
    rewrite expired_today. symmetry. apply Z.ltb_antisym. }
  assert (Hclosed : forall l,
             List.filter (expired mkt) l
             = List.filter (fun p => (pos_expiration p <=? today mkt)%Z) l).
  { intros l. apply List.filter_ext. intros p. apply expired_today. }
  split; [reflexivity|].
  split; [rewrite map_map, Hopen; reflexivity|].
  split; [rewrite map_map, Hclosed; reflexivity|].
  split; [rewrite !length_map; apply filter_lengths|].
  split.
  - apply List.Forall_forall. intros q Hq.
    apply in_map_iff in Hq. destruct Hq as (p & <- & Hp).
    apply filter_In in Hp. destruct Hp as [_ Hp].
    rewrite expired_today in Hp. apply negb_true_iff, Z.leb_gt in Hp.
    split; [exact Hp|]. cbn. apply days_since_today.
  - apply List.Forall_forall. intros c Hc.
    apply in_map_iff in Hc. destruct Hc as (p & <- & Hp).
    apply filter_In in Hp. destruct Hp as [_ Hp].
    rewrite expired_today in Hp. apply Z.leb_le in Hp.
    cbn. repeat split; [exact Hp|apply days_since_today].
Qed.

(** ** Position limits *)

(** What every position opened by the daily run looks like. *)
Definition scanned_position (pos : Position) : Prop :=
  pos_action pos = SELL
  /\ pos_contracts pos = 1%Z
  /\ pos_status pos = OPEN
  /\ In (pos_ticker pos) tickers.

(** At most four open positions, at most one per ticker, all of them
    single short contracts on tracked tickers. *)
Definition within_limits (st : Portfolio) : Prop :=
  (length (positions st) <= 4)%nat
  /\ (forall t, (ticker_positions st t <= 1)%nat)
  /\ Forall scanned_position (positions st).

Lemma position_size_single (opp : Opportunity) :
  1 # 10 < opp_price opp -> position_size opp = Py.Ok 1%Z.
Proof.
  intros Hprice.
  assert (Hpos : 0 < opp_price opp) by lra.
  unfold position_size, Py.div.
  rewrite (premium_per_contract_nonzero opp Hpos). cbn.
  set (q := allocation_per_ticker * (2 # 100) / premium_per_contract opp).
  assert (Hq : 0 <= q /\ q < 1).
  { unfold q, premium_per_contract, allocation_per_ticker. split.
    - apply Qle_shift_div_l; lra.
    - apply Qlt_shift_div_r; lra. }
  destruct Hq as [Hq0 Hq1]. rewrite py_int_floor by exact Hq0.
  assert (Hfloor : (Qfloor q < 1)%Z).
  { apply Z.lt_nge. intros Hge. apply Qfloor_ge_iff in Hge.
    change (inject_Z 1) with 1 in Hge. lra. }
  f_equal. lia.
Qed.

(** What one step of the scan can do to the portfolio. *)
Lemma scan_ticker_effect
    (L : NumLib) (mkt : Market) (st st1 : Portfolio) (total : Z)
    (ticker : string) (report : ScanReport) :
  scan_ticker L mkt st total ticker = Py.Ok (report, st1) ->
  (report <> Traded TradeExecuted /\ st1 = st)
  \/ (report = Traded TradeExecuted
      /\ ticker_positions st ticker = 0%nat
      /\ (total < 4)%Z
      /\ exists trade,
           positions st1 = positions st ++ [trade]
           /\ pos_ticker trade = ticker
           /\ pos_action trade = SELL
           /\ pos_contracts trade = 1%Z
           /\ pos_status trade = OPEN
           /\ pos_entry_date trade = today mkt).
Proof.
  unfold scan_ticker. intros Hscan.
  destruct (1 <=? ticker_positions st ticker)%nat eqn:Hcap.
  { injection Hscan as <- <-. left. split; [discriminate|reflexivity]. }
  destruct (4 <=? total)%Z eqn:Hmax.
  { injection Hscan as <- <-. left. split; [discriminate|reflexivity]. }
  destruct (find_option_opportunity L mkt ticker) as [opp|] eqn:Hfind.
  2:{ injection Hscan as <- <-. left. split; [discriminate|reflexivity]. }
  destruct (find_option_opportunity_fields L mkt ticker opp Hfind)
    as (Hticker & Haction & Hprice).
  unfold execute_trade in Hscan.
  destruct (existsb _ _).
  { cbn in Hscan. injection Hscan as <- <-.
    left. split; [discriminate|reflexivity]. }
  rewrite (position_size_single opp Hprice) in Hscan. cbn in Hscan.
  destruct (Py.Qlt_bool _ _).
  { cbn in Hscan. injection Hscan as <- <-.
    left. split; [discriminate|reflexivity]. }
  cbn in Hscan. injection Hscan as <- <-. right.
  apply Nat.leb_gt in Hcap. apply Z.leb_gt in Hmax.
  split; [reflexivity|]. split; [lia|]. split; [exact Hmax|].
  eexists. split; [reflexivity|].
  cbn [new_trade pos_ticker pos_action pos_contracts pos_status
       pos_entry_date].
  repeat split; assumption.
Qed.

Lemma ticker_positions_app
    (st st1 : Portfolio) (trade : Position) (t : string) :
  positions st1 = positions st ++ [trade] ->
  ticker_positions st1 t
  = (ticker_positions st t
     + if String.eqb (pos_ticker trade) t then 1 else 0)%nat.
Proof.
  intros H. unfold ticker_positions. rewrite H, List.filter_app, length_app.
  cbn [List.filter]. destruct (String.eqb _ _); reflexivity.
Qed.

Lemma scan_tickers_within_limits
    (L : NumLib) (mkt : Market) (ts : list string) :
  (forall t, In t ts -> In t tickers) ->
  forall st total st' log,
    total = Z.of_nat (length (positions st)) ->
    within_limits st ->
    scan_tickers L mkt ts st total = Py.Ok (st', log) ->
    within_limits st'.
Proof.
  induction ts as [|t ts IH]; intros Hts st total st' log Htotal Hlim Hrun.
  - injection Hrun as <- _. exact Hlim.
  - cbn [scan_tickers] in Hrun.
    destruct (scan_ticker L mkt st total t) as [[report st1]|e] eqn:Hscan;
      [|discriminate Hrun].
    cbn in Hrun.
    assert (Hts' : forall t', In t' ts -> In t' tickers)
      by (intros t' Ht'; apply Hts; right; exact Ht').
    destruct (scan_ticker_effect L mkt st st1 total t report Hscan)
      as [[Hrep ->] | (-> & Hzero & Hroom & trade & Hpos & Htick & Hact
                       & Hone & Hopen & _)].
    + destruct report as [| | |trade];
        try (injection Hrun as <- _; exact Hlim);
        try (destruct (scan_tickers L mkt ts st total)
               as [[st2 log2]|e] eqn:Hrest; [|discriminate Hrun];
             cbn in Hrun; injection Hrun as <- _;
             exact (IH Hts' st total st2 log2 Htotal Hlim Hrest)).
      destruct trade; try (exfalso; apply Hrep; reflexivity);
        (destruct (scan_tickers L mkt ts st total)
           as [[st2 log2]|e] eqn:Hrest; [|discriminate Hrun];
         cbn in Hrun; injection Hrun as <- _;
         exact (IH Hts' st total st2 log2 Htotal Hlim Hrest)).
    + destruct (scan_tickers L mkt ts st1 (total + 1))
        as [[st2 log2]|e] eqn:Hrest; [|discriminate Hrun].
      cbn in Hrun. injection Hrun as <- _.
      apply (IH Hts' st1 (total + 1)%Z st2 log2); [| |exact Hrest].
      * rewrite Hpos, length_app. cbn [length]. lia.
      * destruct Hlim as (Hlen & Hper & Hall). split; [|split].
        -- rewrite Hpos, length_app. cbn [length]. lia.
        -- intros t'. rewrite (ticker_positions_app st st1 trade t' Hpos).
           rewrite Htick. destruct (String.eqb t t') eqn:Heq.
           ++ apply String.eqb_eq in Heq. subst t'. lia.
           ++ specialize (Hper t'). lia.
        -- rewrite Hpos. apply Forall_app. split; [exact Hall|].
           constructor; [|constructor].
           repeat split; try assumption.
           rewrite Htick. apply Hts. left. reflexivity.
Qed.

Lemma update_positions_within_limits (mkt : Market) (st : Portfolio) :
  within_limits st -> within_limits (update_positions mkt st).
Proof.
  intros (Hlen & Hper & Hall). unfold within_limits, ticker_positions.
  rewrite update_positions_positions.
  assert (Hcount : forall (f : Position -> bool) l,
             (forall p, f (refresh mkt p) = f p) ->
             (length (List.filter f
                        (map (refresh mkt)
                           (List.filter (fun p => negb (expired mkt p)) l)))
              <= length (List.filter f l))%nat).
  { intros f l Hf. induction l as [|p l IH]; [reflexivity|].
    cbn [List.filter]. destruct (expired mkt p); cbn [negb map List.filter].
    - destruct (f p); cbn [length]; lia.
    - rewrite Hf. destruct (f p); cbn [length]; lia. }
  split; [|split].
  - rewrite length_map.
    pose proof (filter_lengths (expired mkt) (positions st)). lia.
  - intros t. specialize (Hper t). unfold ticker_positions in Hper.
    pose proof (Hcount (fun p => String.eqb (pos_ticker p) t) (positions st)
                  (fun p => eq_refl)). lia.
  - apply List.Forall_forall. intros q Hq.
    apply in_map_iff in Hq. destruct Hq as (p & <- & Hp).
    apply filter_In in Hp. destruct Hp as [Hp _].
    rewrite List.Forall_forall in Hall. exact (Hall p Hp).
Qed.

Lemma run_days_within_limits
    (L : NumLib) (mkts : list Market) (st st' : Portfolio) :
  run_days L mkts st = Py.Ok st' -> within_limits st -> within_limits st'.
Proof.
  revert st. induction mkts as [|mkt mkts IH]; intros st Hrun Hlim.
  - injection Hrun as <-. exact Hlim.
  - cbn [run_days] in Hrun.
    destruct (run_daily_update L mkt st) as [st1|e] eqn:Hday;
      [|discriminate Hrun].
    cbn in Hrun. apply (IH st1 Hrun).
    unfold run_daily_update in Hday.
    destruct (scan_for_opportunities L mkt (update_positions mkt st))
      as [[st2 log]|e] eqn:Hscan; [|discriminate Hday].
    change (update_daily_snapshot L mkt st2 = Py.Ok st1) in Hday.
    destruct (update_daily_snapshot_ledger L mkt st2 st1 Hday)
      as (_ & _ & Hpos & _).
    assert (Hlim2 : within_limits st2).
    { apply (update_positions_within_limits mkt) in Hlim.
      unfold scan_for_opportunities in Hscan.
      destruct (4 <=? _)%Z; [injection Hscan as <- _; exact Hlim|].
      apply (scan_tickers_within_limits L mkt tickers (fun t Ht => Ht)
               _ _ st2 log eq_refl Hlim Hscan). }
    unfold within_limits, ticker_positions in *. rewrite Hpos. exact Hlim2.
Qed.

(** X8. After any sequence of daily runs from a fresh portfolio there are
    at most four open positions and at most one per ticker, and every open
    position is a single short (SELL) contract, with status OPEN, on one of
    the four tracked tickers. *)
Theorem position_limits
    (L : NumLib) (date : Z) (fetch : string -> option Q) (mkts : list Market) :
  exists st',
    run_days L mkts (initialize_portfolio date fetch) = Py.Ok st'
    /\ (length (positions st') <= 4)%nat
    /\ (forall t, (ticker_positions st' t <= 1)%nat)
    /\ Forall (fun pos => pos_action pos = SELL
                          /\ pos_contracts pos = 1%Z
                          /\ pos_status pos = OPEN
                          /\ In (pos_ticker pos) tickers)
         (positions st').
Proof.
  destruct (run_days_fresh_ok L date fetch mkts) as (st' & Hrun).
  exists st'. split; [exact Hrun|].
  apply (run_days_within_limits L mkts _ st' Hrun).
  split; [cbn; lia|]. split; [intros t; cbn; lia|constructor].
Qed.

(** ** Taking a snapshot *)

Lemma update_benchmarks_missing
    (mkt : Market) (ts : list string) (m b : gmap string Q) :
  (exists t, In t ts /\ m !! t = None) ->
  update_benchmarks mkt false ts (m, b) = Py.Raise Py.KeyError.
Proof.
  revert b. induction ts as [|t0 ts IH]; intros b (t & Hin & Hnone).
  - destruct Hin.
  - cbn [update_benchmarks].
    destruct (m !! t0) as [shares|] eqn:Ht0.
    + rewrite (update_benchmark_later mkt m b t0 shares Ht0).
      change (update_benchmarks mkt false ts
                (m, <[ t0 := shares * price mkt t0 ]> b)
              = Py.Raise Py.KeyError).
      apply IH. exists t. split; [|exact Hnone].
      destruct Hin as [->|Hin]; [congruence|exact Hin].
    + unfold update_benchmark. cbn [fst snd]. rewrite Ht0. reflexivity.
Qed.

Lemma shares_listed_or_missing (ts : list string) (m : gmap string Q) :
  (forall t, In t ts -> is_Some (m !! t))
  \/ (exists t, In t ts /\ m !! t = None).
Proof.
  induction ts as [|t0 ts IH]; [left; intros t []|].
  destruct (m !! t0) as [s|] eqn:Ht0.
  - destruct IH as [Hall|(t & Hin & Hnone)].
    + left. intros t [<-|Hin]; [exists s; exact Ht0|apply Hall, Hin].
    + right. exists t. split; [right; exact Hin|exact Hnone].
  - right. exists t0. split; [left; reflexivity|exact Ht0].
Qed.

(** X9. [update_daily_snapshot] raises (a missing key) exactly when the
    portfolio does not hold exactly one snapshot and the benchmark shares
    lack one of the tracked tickers.  On the first day, with exactly one
    snapshot recorded, it never raises, whatever the shares. *)
Theorem update_daily_snapshot_raises_iff
    (L : NumLib) (mkt : Market) (st : Portfolio) :
  (exists e, update_daily_snapshot L mkt st = Py.Raise e)
  <-> length (daily_snapshots st) <> 1%nat
      /\ exists t, In t tickers /\ benchmark_shares st !! t = None.
Proof.
  split.
  - intros [e He].
    destruct (Nat.eq_dec (length (daily_snapshots st)) 1%nat)
      as [Hone|Hmany].
    { destruct (update_daily_snapshot_first_day L mkt st Hone)
        as (st' & snapshot & Hok & _). congruence. }
    split; [exact Hmany|].
    destruct (shares_listed_or_missing tickers (benchmark_shares st))
      as [Hall|Hmissing]; [|exact Hmissing].
    destruct (update_daily_snapshot_later L mkt st Hmany Hall)
      as (st' & snapshot & Hok & _). congruence.
  - intros (Hmany & Hmissing). exists Py.KeyError.
    unfold update_daily_snapshot.
    apply Nat.eqb_neq in Hmany. rewrite Hmany.
    rewrite (update_benchmarks_missing mkt tickers _ _ Hmissing).
    reflexivity.
Qed.



(** ** Rounding to cents *)

(** [y] is [x] rounded to two decimals: a whole number [n] of hundredths,
    nearest to [x], the even one when [x] lies halfway between two. *)
Definition rounded_to_cents (x y : Q) : Prop :=
  exists n : Z,
    y == inject_Z n / 100
    /\ Qabs (y - x) <= 1 # 200
    /\ (Qabs (y - x) == 1 # 200 -> Z.even n = true).


(** Rounding to cents determines the amount. *)
Lemma rounded_to_cents_unique (x y1 y2 : Q) :
  rounded_to_cents x y1 -> rounded_to_cents x y2 -> y1 == y2.
Proof.
  intros (n1 & E1 & C1 & T1) (n2 & E2 & C2 & T2).
  apply Qabs_Qle_condition in C1. apply Qabs_Qle_condition in C2.
  unfold Qdiv in E1, E2. change (/ 100) with (1 # 100) in E1, E2.
  assert (Hup : (n1 <= n2 + 1)%Z).
  { rewrite Zle_Qle. rewrite inject_Z_plus. change (inject_Z 1) with 1. lra. }
  assert (Hdown : (n2 <= n1 + 1)%Z).
  { rewrite Zle_Qle. rewrite inject_Z_plus. change (inject_Z 1) with 1. lra. }
  destruct (Z.eq_dec n1 n2) as [->|Hne]; [rewrite E1, E2; reflexivity|].
  exfalso.
  assert (Hcase : n1 = (n2 + 1)%Z \/ n2 = (n1 + 1)%Z) by lia.
  destruct Hcase as [->| ->].
  - rewrite inject_Z_plus in E1. change (inject_Z 1) with 1 in E1.
    assert (H1 : Qabs (y1 - x) == 1 # 200) by (rewrite Qabs_pos; lra).
    assert (H2 : Qabs (y2 - x) == 1 # 200) by (rewrite Qabs_neg; lra).
    specialize (T1 H1). specialize (T2 H2).
    rewrite Z.add_1_r, Z.even_succ, <- Z.negb_even, T2 in T1.
    discriminate T1.
  - rewrite inject_Z_plus in E2. change (inject_Z 1) with 1 in E2.
    assert (H1 : Qabs (y1 - x) == 1 # 200) by (rewrite Qabs_neg; lra).
    assert (H2 : Qabs (y2 - x) == 1 # 200) by (rewrite Qabs_pos; lra).
    specialize (T1 H1). specialize (T2 H2).
    rewrite Z.add_1_r, Z.even_succ, <- Z.negb_even, T1 in T2.
    discriminate T2.
Qed.





(** ** What the scan does to the portfolio *)

(** [opportunities_found]: the trades that the scan executed. *)
Definition opportunities_found (log : list (string * ScanReport)) : nat :=
  length (List.filter
            (fun entry =>
               match snd entry with
               | Traded TradeExecuted => true
               | _ => false
               end) log).

(** What the scan requires of a position that it opens. *)
Definition opened_today (mkt : Market) (pos : Position) : Prop :=
  pos_entry_date pos = today mkt
  /\ pos_premium_collected pos == pos_entry_price pos * 100
  /\ 10 < pos_premium_collected pos.

Lemma scan_ticker_opens
    (L : NumLib) (mkt : Market) (st st1 : Portfolio) (total : Z)
    (ticker : string) (report : ScanReport) :
  scan_ticker L mkt st total ticker = Py.Ok (report, st1) ->
  (report <> Traded TradeExecuted /\ st1 = st)
  \/ (report = Traded TradeExecuted
      /\ exists trade,
           positions st1 = positions st ++ [trade]
           /\ current_cash st1 = current_cash st + pos_premium_collected trade
           /\ same_benchmarks st st1
           /\ closed_trades st1 = closed_trades st
           /\ daily_snapshots st1 = daily_snapshots st
           /\ performance_stats st1 = performance_stats st
           /\ opened_today mkt trade).
Proof.
  unfold scan_ticker. intros Hscan.
  destruct (1 <=? ticker_positions st ticker)%nat.
  { injection Hscan as <- <-. left. split; [discriminate|reflexivity]. }
  destruct (4 <=? total)%Z.
  { injection Hscan as <- <-. left. split; [discriminate|reflexivity]. }
  destruct (find_option_opportunity L mkt ticker) as [opp|] eqn:Hfind.
  2:{ injection Hscan as <- <-. left. split; [discriminate|reflexivity]. }
  destruct (find_option_opportunity_fields L mkt ticker opp Hfind)
    as (_ & Hsell & Hbid).
  pose proof (position_size_single opp Hbid) as Hsize.
  unfold execute_trade in Hscan.
  destruct (existsb _ _).
  { injection Hscan as <- <-. left. split; [discriminate|reflexivity]. }
  rewrite Hsize in Hscan. cbn in Hscan.
  destruct (Py.Qlt_bool _ _).
  { injection Hscan as <- <-. left. split; [discriminate|reflexivity]. }
  injection Hscan as <- <-. right. split; [reflexivity|].
  eexists. split; [reflexivity|].
  unfold open_position, new_trade, opened_today, same_benchmarks.
  cbn. rewrite Hsell. repeat split.
  - unfold premium_per_contract. ring.
  - unfold premium_per_contract. change (inject_Z 1) with 1. lra.
Qed.

Lemma scan_tickers_opens (L : NumLib) (mkt : Market) (ts : list string) :
  forall (st st' : Portfolio) (total : Z) (log : list (string * ScanReport)),
    scan_tickers L mkt ts st total = Py.Ok (st', log) ->
    exists new,
      positions st' = positions st ++ new
      /\ length new = opportunities_found log
      /\ current_cash st'
         == current_cash st + sum_over pos_premium_collected new
      /\ closed_trades st' = closed_trades st
      /\ daily_snapshots st' = daily_snapshots st
      /\ performance_stats st' = performance_stats st
      /\ benchmark_shares st' = benchmark_shares st
      /\ Forall (opened_today mkt) new.
Proof.
  induction ts as [|t ts IH]; intros st st' total log Hrun.
  - injection Hrun as <- <-. exists []. rewrite app_nil_r.
    repeat split; try reflexivity; [cbn; ring|constructor].
  - cbn [scan_tickers] in Hrun.
    destruct (scan_ticker L mkt st total t) as [[report st1]|e] eqn:Hscan;
      [|discriminate Hrun].
    cbn in Hrun.
    destruct (scan_ticker_opens L mkt st st1 total t report Hscan)
      as [[Hrep ->]|(-> & trade & Hpos & Hcash & Hshares & Hclosed & Hsnaps
                     & Hstats & Htrade)].
    + assert (Hrest :
        (report = MaxPositionsReached /\ st' = st /\ log = [(t, report)])
        \/ exists log',
             scan_tickers L mkt ts st total = Py.Ok (st', log')
             /\ log = (t, report) :: log').
      { destruct report as [| | |[| |]];
          try (injection Hrun as <- <-; left; repeat split; reflexivity);
          try contradiction;
          (destruct (scan_tickers L mkt ts st total) as [[st2 log']|e]
             eqn:Hrest; [|discriminate Hrun];
           cbn in Hrun; injection Hrun as <- <-;
           right; exists log'; split; reflexivity). }
      destruct Hrest as [(-> & -> & ->)|(log' & Hrest & ->)].
      * exists []. rewrite app_nil_r.
        repeat split; try reflexivity; [cbn; ring|constructor].
      * destruct (IH st st' total log' Hrest)
          as (new & Hp & Hn & Hc & H1 & H2 & H3 & H4 & Hall).
        exists new. repeat split; try assumption.
        rewrite Hn. unfold opportunities_found. cbn [List.filter snd].
        destruct report as [| | |[| |]]; try reflexivity. contradiction.
    + destruct (scan_tickers L mkt ts st1 (total + 1)) as [[st2 log']|e]
        eqn:Hrest; [|discriminate Hrun].
      cbn in Hrun. injection Hrun as <- <-.
      destruct (IH st1 st2 (total + 1)%Z log' Hrest)
        as (new & Hp & Hn & Hc & H1 & H2 & H3 & H4 & Hall).
      exists (trade :: new). repeat split.
      * rewrite Hp, Hpos, <- app_assoc. reflexivity.
      * unfold opportunities_found in *. cbn. rewrite Hn. reflexivity.
      * rewrite Hc, Hcash.
        change (sum_over pos_premium_collected (trade :: new))
          with (pos_premium_collected trade
                + sum_over pos_premium_collected new).
        ring.
      * congruence.
      * congruence.
      * congruence.
      * rewrite H4. exact (proj2 Hshares).
      * constructor; assumption.
Qed.

(** X11. The scan for opportunities only appends: the positions that were
    open stay where they are, and the closed trades, the snapshots, the
    statistics and the benchmark shares are not touched.  The positions it
    appends are as many as the trades it counts in [opportunities_found];
    each is entered today with a premium of 100 times its entry price,
    above 10 dollars, and the cash grows by exactly the sum of these
    premiums. *)
Theorem scan_only_appends
    (L : NumLib) (mkt : Market) (st st' : Portfolio)
    (log : list (string * ScanReport)) :
  scan_for_opportunities L mkt st = Py.Ok (st', log) ->
  exists new,
    positions st' = positions st ++ new
    /\ length new = opportunities_found log
    /\ current_cash st'
       == current_cash st + sum_over pos_premium_collected new
    /\ closed_trades st' = closed_trades st
    /\ daily_snapshots st' = daily_snapshots st
    /\ performance_stats st' = performance_stats st
    /\ benchmark_shares st' = benchmark_shares st
    /\ Forall (opened_today mkt) new.
Proof.
  unfold scan_for_opportunities. intros Hrun.
  destruct (4 <=? Z.of_nat (length (positions st)))%Z.
  - injection Hrun as <- <-. exists []. rewrite app_nil_r.
    repeat split; try reflexivity; [cbn; ring|constructor].
  - exact (scan_tickers_opens L mkt tickers st st' _ log Hrun).
Qed.

Lemma scan_only_appends_witness :
  exists st' log new,
    scan_for_opportunities approx_lib spy_only_market
      (initialize_portfolio 0 (fun _ => None)) = Py.Ok (st', log)
    /\ positions st' = new
    /\ length new = opportunities_found log
    /\ current_cash st' == 1000 + sum_over pos_premium_collected new.
Proof.
  destruct (scan_for_opportunities approx_lib spy_only_market
              (initialize_portfolio 0 (fun _ => None)))
    as [[st' log]|e] eqn:E; [|exfalso; revert E; vm_compute; discriminate].
  destruct (scan_only_appends approx_lib spy_only_market _ st' log E)
    as (new & Hpos & Hlen & Hcash & _).
  exists st', log, new. repeat split; assumption.
Defined.

(** ** Calls against puts *)

(** A library whose normal distribution function is symmetric by
    construction: the approximation is used on the positive side and
    mirrored to the negative side. *)
Definition symmetric_cdf (x : Q) : Q :=
  if Py.Qlt_bool x 0 then 1 - Approx.cdf (- x)
  else if Py.Qlt_bool 0 x then Approx.cdf x
  else 1 # 2.

Definition symmetric_lib : NumLib :=
  {| np_log := Approx.log;
     np_sqrt := Approx.sqrt;
     np_exp := Approx.exp;
     norm_cdf := symmetric_cdf;
     series_std := Approx.std |}.

Lemma symmetric_cdf_sum (x : Q) :
  norm_cdf symmetric_lib x + norm_cdf symmetric_lib (- x) == 1.
Proof.
  cbn [norm_cdf symmetric_lib]. unfold symmetric_cdf.
  assert (Hinv : - - x = x).
  { destruct x as [a b]. unfold Qopp. cbn. rewrite Z.opp_involutive.
    reflexivity. }
  destruct (Py.Qlt_bool x 0) eqn:Hneg.
  - apply Qlt_bool_iff in Hneg.
    assert (H1 : Py.Qlt_bool (- x) 0 = false)
      by (apply Qlt_bool_false_iff; lra).
    assert (H2 : Py.Qlt_bool 0 (- x) = true) by (apply Qlt_bool_iff; lra).
    rewrite H1, H2. ring.
  - apply Qlt_bool_false_iff in Hneg.
    destruct (Py.Qlt_bool 0 x) eqn:Hpos.
    + apply Qlt_bool_iff in Hpos.
      assert (H1 : Py.Qlt_bool (- x) 0 = true) by (apply Qlt_bool_iff; lra).
      rewrite H1, Hinv. ring.
    + apply Qlt_bool_false_iff in Hpos.
      assert (H1 : Py.Qlt_bool (- x) 0 = false)
        by (apply Qlt_bool_false_iff; lra).
      assert (H2 : Py.Qlt_bool 0 (- x) = false)
        by (apply Qlt_bool_false_iff; lra).
      rewrite H1, H2. reflexivity.
Qed.

Lemma black_scholes_regular_eq
    (L : NumLib) (S K T r0 sigma : Q) (option_type : string) :
  0 < T -> 0 < sigma ->
  black_scholes L S K T r0 sigma option_type
  = match black_scholes_closed_form L S K T r0 sigma option_type with
    | Py.Ok v => v
    | Py.Raise _ => 0
    end.
Proof.
  intros HT Hsigma. unfold black_scholes.
  assert (E1 : Qle_bool T 0 = false).
  { destruct (Qle_bool T 0) eqn:E; [|reflexivity].
    apply Qle_bool_iff in E. lra. }
  assert (E2 : Qle_bool sigma 0 = false).
  { destruct (Qle_bool sigma 0) eqn:E; [|reflexivity].
    apply Qle_bool_iff in E. lra. }
  rewrite E1, E2. reflexivity.
Qed.

(** X12. Calls against puts, for a normal distribution function with
    [norm_cdf x + norm_cdf (- x) = 1].  With the time or the volatility not
    positive both prices are intrinsic values: they are not negative and
    differ by [S - K].  Otherwise, for a strike other than zero, they
    differ by [S - K * exp (- r * T)] (put-call parity). *)
Theorem put_call_parity (L : NumLib) (S K T r0 sigma : Q) :
  (forall x, norm_cdf L x + norm_cdf L (- x) == 1) ->
  let call := black_scholes L S K T r0 sigma "call" in
  let put := black_scholes L S K T r0 sigma "put" in
  (T <= 0 \/ sigma <= 0 ->
   call - put == S - K /\ 0 <= call /\ 0 <= put)
  /\ (0 < T -> 0 < sigma -> ~ K == 0 ->
      call - put == S - K * np_exp L (- r0 * T)).
Proof.
  intros Hsym call put. subst call put.
  split; [intros Hdeg|intros HT Hsigma HK].
  - rewrite !(black_scholes_degenerate_eq L S K T r0 sigma _ Hdeg).
    cbn [String.eqb Ascii.eqb Bool.eqb]. rewrite !py_max_Qmax.
    split; [|split; apply Qminmax.Q.le_max_r].
    destruct (Qlt_le_dec S K) as [Hlt|Hge].
    + rewrite (Qminmax.Q.max_r (S - K) 0), (Qminmax.Q.max_l (K - S) 0);
        lra.
    + rewrite (Qminmax.Q.max_l (S - K) 0), (Qminmax.Q.max_r (K - S) 0);
        lra.
  - rewrite !(black_scholes_regular_eq L S K T r0 sigma _ HT Hsigma).
    unfold black_scholes_closed_form, Py.div.
    assert (E : Qeq_bool K 0 = false).
    { destruct (Qeq_bool K 0) eqn:E; [|reflexivity].
      apply Qeq_bool_iff in E. contradiction. }
    rewrite E. cbn [mbind result_bind Py.bind String.eqb Ascii.eqb Bool.eqb].
    set (d1 := (np_log L (S / K) + (r0 + (1 # 2) * sigma ^ 2) * T)
               / (sigma * np_sqrt L T)).
    set (d2 := d1 - sigma * np_sqrt L T).
    transitivity (S * (norm_cdf L d1 + norm_cdf L (- d1))
                  - K * np_exp L (- r0 * T)
                    * (norm_cdf L d2 + norm_cdf L (- d2))); [ring|].
    rewrite !Hsym. ring.
Qed.

Lemma put_call_parity_witness :
  black_scholes symmetric_lib 100 110 1 r (1 # 5) "call"
  - black_scholes symmetric_lib 100 110 1 r (1 # 5) "put"
  == 100 - 110 * np_exp symmetric_lib (- r * 1).
Proof.
  apply (put_call_parity symmetric_lib 100 110 1 r (1 # 5) symmetric_cdf_sum);
    [reflexivity|reflexivity|discriminate].
Defined.

(** ** generate_report *)

(** What [generate_report] can raise: [IndexError] from indexing the list
    of snapshots, and the exceptions of [Py]. *)
Inductive ReportError : Type :=
| IndexError
| PyError (e : Py.exn).

Inductive ReportResult (A : Type) : Type :=
| Reported (a : A)
| Failed (e : ReportError).

Arguments Reported {A} a.
Arguments Failed {A} e.

#[global] Instance report_ret : MRet ReportResult := fun _ a => Reported a.
#[global] Instance report_bind : MBind ReportResult :=
  fun _ _ k m =>
    match m with
    | Reported a => k a
    | Failed e => Failed e
    end.

Definition from_py {A : Type} (m : Py.result A) : ReportResult A :=
  match m with
  | Py.Ok a => Reported a
  | Py.Raise e => Failed (PyError e)
  end.

Definition from_option {A : Type} (e : ReportError) (o : option A)
    : ReportResult A :=
  match o with
  | Some a => Reported a
  | None => Failed e
  end.

(** The figures that the report prints. *)
Record Report : Type := {
  rep_date : Z;
  rep_days_trading : nat;
  rep_current_value : Q;
  rep_total_return : Q;
  rep_cash : Q;
  rep_spy_return : Q;
  rep_alpha : Q;
  rep_open_positions : nat;
  rep_stats : Stats;
  rep_win_rate : Q;
  rep_max_drawdown : Q;
  rep_utilization : Q
}.

(** [(v - peak) / peak * 100] *)
Definition decline (peak v : Q) : Py.result Q :=
  q ← Py.div (v - peak) peak;
  Py.Ok (q * 100).

(** The loop [for v in values] of the drawdown; the state is
    [(peak, max_dd)]. *)
Fixpoint drawdown_loop (values : list Q) (peak max_dd : Q) : Py.result Q :=
  match values with
  | [] => Py.Ok max_dd
  | v :: rest =>
      let peak' := if Py.Qlt_bool peak v then v else peak in
      dd ← decline peak' v;
      let max_dd' := if Py.Qlt_bool dd max_dd then dd else max_dd in
      drawdown_loop rest peak' max_dd'
  end.

Definition max_drawdown (values : list Q) : ReportResult Q :=
  peak ← from_option IndexError (head values);
  from_py (drawdown_loop values peak 0).

Definition win_rate (stats : Stats) : Py.result Q :=
  if (0 <? total_trades stats)%Z
  then q ← Py.div (inject_Z (winning_trades stats))
                  (inject_Z (total_trades stats));
       Py.Ok (q * 100)
  else Py.Ok 0.

Definition max_total_positions : Z := 4.

Definition generate_report (st : Portfolio) : ReportResult Report :=
  latest ← from_option IndexError (last (daily_snapshots st));
  let initial := initial_capital st in
  q ← from_py (Py.div (snap_portfolio_value latest - initial) initial);
  let total_return := q * 100 in
  spy_benchmark ←
    from_option (PyError Py.KeyError) (snap_benchmarks latest !! "SPY");
  let spy_return := (spy_benchmark - 250) / 250 * 100 in
  let stats :=
    match performance_stats st with
    | Some stats => stats
    | None => empty_stats
    end in
  rate ← from_py (win_rate stats);
  max_dd ← max_drawdown (map snap_portfolio_value (daily_snapshots st));
  let open_positions := length (positions st) in
  mret {| rep_date := snap_date latest;
          rep_days_trading := length (daily_snapshots st);
          rep_current_value := snap_portfolio_value latest;
          rep_total_return := total_return;
          rep_cash := current_cash st;
          rep_spy_return := spy_return;
          rep_alpha := total_return - spy_return;
          rep_open_positions := open_positions;
          rep_stats := stats;
          rep_win_rate := rate;
          rep_max_drawdown := max_dd;
          rep_utilization :=
            inject_Z (Z.of_nat open_positions)
            / inject_Z max_total_positions * 100 |}.

(** *** The drawdown *)

(** The relative change from [p] to [v], in percent. *)
Definition change_pct (p v : Q) : Q := (v - p) / p * 100.

Lemma decline_positive (peak v : Q) :
  0 < peak -> decline peak v = Py.Ok (change_pct peak v).
Proof.
  intros Hpeak. unfold decline, Py.div.
  destruct (Qeq_bool peak 0) eqn:E; [|reflexivity].
  apply Qeq_bool_iff in E. lra.
Qed.

Lemma change_pct_self (p : Q) : 0 < p -> change_pct p p == 0.
Proof. intros Hp. unfold change_pct. field. lra. Qed.

(** From a higher starting value the change to the same positive value is
    lower. *)
Lemma change_pct_antitone (p q v : Q) :
  0 < p -> p <= q -> 0 <= v -> change_pct q v <= change_pct p v.
Proof.
  intros Hp Hpq Hv. unfold change_pct.
  assert (Hq : 0 < q) by lra.
  assert (E1 : (v - q) / q * 100 == (v / q - 1) * 100) by (field; lra).
  assert (E2 : (v - p) / p * 100 == (v / p - 1) * 100) by (field; lra).
  rewrite E1, E2.
  assert (Hle : v / q <= v / p).
  { apply Qle_shift_div_l; [exact Hp|].
    assert (E : v / q * p == v * (p / q)) by (field; lra).
    rewrite E.
    assert (H1 : p / q <= 1) by (apply Qle_shift_div_r; lra).
    generalize dependent (p / q). intros t _ Ht. nra. }
  lra.
Qed.

Lemma change_pct_nonpositive (p v : Q) :
  0 < p -> v <= p -> change_pct p v <= 0.
Proof.
  intros Hp Hv. unfold change_pct.
  assert (H : (v - p) / p <= 0).
  { apply Qle_shift_div_r; lra. }
  lra.
Qed.

Lemma lookup_In {A : Type} (l : list A) (i : nat) (x : A) :
  l !! i = Some x -> In x l.
Proof.
  revert i. induction l as [|y l IH]; intros i Hi; [discriminate Hi|].
  destruct i as [|i]; simpl in Hi.
  - injection Hi as ->. left. reflexivity.
  - right. exact (IH i Hi).
Qed.

(** The drawdown loop started at [peak] and [max_dd] on the values [todo]:
    the result is at most [max_dd] and at most the change between any two
    values of [peak :: todo] taken in order, and it is [max_dd] or one of
    these changes. *)
Lemma drawdown_loop_spec (todo : list Q) :
  forall peak max_dd : Q,
    0 < peak -> max_dd <= 0 ->
    (forall v, In v todo -> 0 < v) ->
    exists dd,
      drawdown_loop todo peak max_dd = Py.Ok dd
      /\ dd <= max_dd
      /\ (forall (i j : nat) (p v : Q),
             (i <= j)%nat ->
             (peak :: todo) !! i = Some p ->
             (peak :: todo) !! j = Some v ->
             dd <= change_pct p v)
      /\ (dd = max_dd
          \/ exists (i j : nat) (p v : Q),
               (i <= j)%nat
               /\ (peak :: todo) !! i = Some p
               /\ (peak :: todo) !! j = Some v
               /\ dd = change_pct p v).
Proof.
  induction todo as [|v0 rest IH]; intros peak max_dd Hpeak Hmax Hpos.
  - exists max_dd. split; [reflexivity|]. split; [apply Qle_refl|].
    split; [|left; reflexivity].
    intros i j p v Hij Hi Hj.
    destruct j as [|j]; [|discriminate Hj].
    destruct i as [|i]; [|lia].
    simpl in Hi, Hj. injection Hi as <-. injection Hj as <-.
    rewrite (change_pct_self peak Hpeak). exact Hmax.
  - assert (Hv0 : 0 < v0) by (apply Hpos; left; reflexivity).
    cbn [drawdown_loop].
    set (peak' := if Py.Qlt_bool peak v0 then v0 else peak).
    assert (Hpeak' : 0 < peak' /\ peak <= peak' /\ v0 <= peak'
                     /\ (peak' = peak \/ peak' = v0)).
    { unfold peak'. destruct (Py.Qlt_bool peak v0) eqn:E.
      - apply Qlt_bool_iff in E. repeat split; try lra. right. reflexivity.
      - apply Qlt_bool_false_iff in E. repeat split; try lra.
        left. reflexivity. }
    clearbody peak'. destruct Hpeak' as (Hp0 & Hge & Hge0 & Hwhich).
    rewrite (decline_positive peak' v0 Hp0).
    cbn [mbind result_bind Py.bind].
    set (max_dd' := if Py.Qlt_bool (change_pct peak' v0) max_dd
                    then change_pct peak' v0 else max_dd).
    pose proof (change_pct_nonpositive peak' v0 Hp0 Hge0) as Hdd0.
    assert (Hmax' : max_dd' <= max_dd /\ max_dd' <= change_pct peak' v0
                    /\ (max_dd' = max_dd \/ max_dd' = change_pct peak' v0)).
    { unfold max_dd'.
      destruct (Py.Qlt_bool (change_pct peak' v0) max_dd) eqn:E.
      - apply Qlt_bool_iff in E. repeat split; try lra. right. reflexivity.
      - apply Qlt_bool_false_iff in E. repeat split; try lra.
        left. reflexivity. }
    clearbody max_dd'. destruct Hmax' as (Hle & Hle0 & Hwhich').
    assert (Hmax0 : max_dd' <= 0) by lra.
    destruct (IH peak' max_dd' Hp0 Hmax0
                (fun v Hv => Hpos v (or_intror Hv)))
      as (dd & Hrun & Hdd & Hlower & Hattained).
    exists dd. split; [exact Hrun|]. split; [lra|]. split.
    + intros i j p v Hij Hi Hj.
      destruct j as [|[|j]]; simpl in Hj.
      * destruct i as [|i]; [|lia].
        simpl in Hi. injection Hi as <-. injection Hj as <-.
        rewrite (change_pct_self peak Hpeak). lra.
      * injection Hj as <-.
        assert (Hp : 0 < p /\ p <= peak').
        { destruct i as [|[|i]]; [| |lia]; simpl in Hi;
            injection Hi as <-; split; lra. }
        apply Qle_trans with (change_pct peak' v0); [lra|].
        apply change_pct_antitone; lra.
      * assert (Hv : 0 < v).
        { apply Hpos. right.
          exact (lookup_In rest j v Hj). }
        assert (Hvia : dd <= change_pct peak' v).
        { apply (Hlower 0%nat (S j) peak' v); [lia|reflexivity|exact Hj]. }
        destruct i as [|[|i]]; simpl in Hi.
        -- injection Hi as <-.
           apply Qle_trans with (change_pct peak' v); [exact Hvia|].
           apply change_pct_antitone; lra.
        -- injection Hi as <-.
           apply Qle_trans with (change_pct peak' v); [exact Hvia|].
           apply change_pct_antitone; lra.
        -- apply (Hlower (S i) (S j) p v); [lia|exact Hi|exact Hj].
    + assert (Hfirst : exists (i j : nat) (p v : Q),
                 (i <= j)%nat
                 /\ (peak :: v0 :: rest) !! i = Some p
                 /\ (peak :: v0 :: rest) !! j = Some v
                 /\ change_pct peak' v0 = change_pct p v).
      { destruct Hwhich as [->| ->].
        - exists 0%nat, 1%nat, peak, v0. repeat split; try lia.
        - exists 1%nat, 1%nat, v0, v0. repeat split; try lia. }
      destruct Hattained as [->|(i & j & p & v & Hij & Hi & Hj & ->)].
      * destruct Hwhich' as [->| ->]; [left; reflexivity|right; exact Hfirst].
      * right. destruct j as [|j]; simpl in Hj.
        -- destruct i as [|i]; [|lia].
           simpl in Hi. injection Hi as <-. injection Hj as <-.
           destruct Hwhich as [->| ->].
           ++ exists 0%nat, 0%nat, peak, peak. repeat split; try lia.
           ++ exists 1%nat, 1%nat, v0, v0. repeat split; try lia.
        -- destruct i as [|i]; simpl in Hi.
           ++ injection Hi as <-.
              destruct Hwhich as [->| ->].
              ** exists 0%nat, (S (S j)), peak, v.
                 repeat split; [lia|exact Hj].
              ** exists 1%nat, (S (S j)), v0, v.
                 repeat split; [lia|exact Hj].
           ++ exists (S (S i)), (S (S j)), p, v.
              repeat split; [lia|exact Hi|exact Hj].
Qed.

(** X13. The maximum drawdown of a non-empty list of positive portfolio
    values is computed without an exception and is the largest relative
    fall, in percent, from a value to the same or a later value: it is at
    most the change between any two values taken in order, it is the change
    between two of them, and so it is never positive. *)
Theorem max_drawdown_spec (values : list Q) :
  values <> [] ->
  (forall v, In v values -> 0 < v) ->
  exists dd,
    max_drawdown values = Reported dd
    /\ dd <= 0
    /\ (forall (i j : nat) (p v : Q),
           (i <= j)%nat ->
           values !! i = Some p -> values !! j = Some v ->
           dd <= change_pct p v)
    /\ (exists (i j : nat) (p v : Q),
           (i <= j)%nat
           /\ values !! i = Some p /\ values !! j = Some v
           /\ dd == change_pct p v).
Proof.
  intros Hne Hpos.
  destruct values as [|first rest]; [contradiction|].
  assert (Hfirst : 0 < first) by (apply Hpos; left; reflexivity).
  destruct (drawdown_loop_spec (first :: rest) first 0 Hfirst
              (Qle_refl 0) Hpos)
    as (dd & Hrun & Hdd & Hlower & Hattained).
  exists dd. unfold max_drawdown. cbn [head from_option mbind report_bind].
  rewrite Hrun. split; [reflexivity|]. split; [exact Hdd|]. split.
  - intros i j p v Hij Hi Hj.
    apply (Hlower (S i) (S j) p v); [lia|exact Hi|exact Hj].
  - destruct Hattained as [->|(i & j & p & v & Hij & Hi & Hj & ->)].
    + exists 0%nat, 0%nat, first, first. repeat split; try lia.
      symmetry. apply change_pct_self. exact Hfirst.
    + destruct j as [|j]; simpl in Hj.
      * destruct i as [|i]; [|lia].
        simpl in Hi. injection Hi as <-. injection Hj as <-.
        exists 0%nat, 0%nat, first, first.
        repeat split; try lia; reflexivity.
      * destruct i as [|i]; simpl in Hi.
        -- injection Hi as <-.
           exists 0%nat, j, first, v.
           repeat split; try lia; try assumption; reflexivity.
        -- exists i, j, p, v.
           repeat split; try lia; try assumption; reflexivity.
Qed.

Lemma max_drawdown_spec_witness :
  exists dd,
    max_drawdown [1000; 1100; 990; 1045] = Reported dd
    /\ dd <= change_pct 1100 990.
Proof.
  destruct (max_drawdown_spec [1000; 1100; 990; 1045])
    as (dd & Hrun & _ & Hlower & _).
  - discriminate.
  - intros v Hv. cbn [In] in Hv.
    destruct Hv as [<-|[<-|[<-|[<-|[]]]]]; reflexivity.
  - exists dd. split; [exact Hrun|].
    apply (Hlower 1%nat 2%nat 1100 990); [lia|reflexivity|reflexivity].
Defined.

(** *** The report after daily runs *)

(** The drawdown loop does not raise once the peak is positive, whatever
    the later values are, and its result is not positive. *)
Lemma drawdown_loop_ok (todo : list Q) :
  forall peak max_dd : Q,
    0 < peak -> max_dd <= 0 ->
    exists dd, drawdown_loop todo peak max_dd = Py.Ok dd /\ dd <= 0.
Proof.
  induction todo as [|v0 rest IH]; intros peak max_dd Hpeak Hmax.
  - exists max_dd. split; [reflexivity|exact Hmax].
  - cbn [drawdown_loop].
    set (peak' := if Py.Qlt_bool peak v0 then v0 else peak).
    assert (Hp0 : 0 < peak').
    { unfold peak'. destruct (Py.Qlt_bool peak v0) eqn:E; [|exact Hpeak].
      apply Qlt_bool_iff in E. lra. }
    clearbody peak'.
    rewrite (decline_positive peak' v0 Hp0).
    cbn [mbind result_bind Py.bind].
    apply IH; [exact Hp0|].
    destruct (Py.Qlt_bool (change_pct peak' v0) max_dd) eqn:E;
      [|exact Hmax].
    apply Qlt_bool_iff in E. lra.
Qed.

(** The benchmarks computed by the loop over the tickers have an entry
    for every ticker of the loop. *)
Lemma update_benchmarks_keys
    (mkt : Market) (first_day : bool) (ts : list string) :
  forall (m b m' b' : gmap string Q),
    update_benchmarks mkt first_day ts (m, b) = Py.Ok (m', b') ->
    forall t, In t ts \/ is_Some (b !! t) -> is_Some (b' !! t).
Proof.
  induction ts as [|t0 ts IH]; intros m b m' b' Hrun t Ht.
  - injection Hrun as _ <-. destruct Ht as [[]|Ht]. exact Ht.
  - cbn [update_benchmarks] in Hrun.
    destruct (update_benchmark mkt first_day (m, b) t0) as [[m1 b1]|e]
      eqn:Hone; [|discriminate Hrun].
    apply (IH m1 b1 m' b' Hrun t).
    unfold update_benchmark in Hone. cbn [fst snd] in Hone.
    destruct (_ !! t0) as [shares|]; [|discriminate Hone].
    injection Hone as _ <-.
    destruct (decide (t0 = t)) as [->|Hother].
    + right. rewrite lookup_insert_eq. eexists. reflexivity.
    + destruct Ht as [[Heq|Hin]|Hb]; [contradiction|left; exact Hin|].
      right. rewrite lookup_insert_ne by exact Hother. exact Hb.
Qed.

(** What the report needs of the portfolio: a capital other than zero, a
    first snapshot with a positive value, and a latest snapshot with the
    SPY benchmark. *)
Definition reportable (st : Portfolio) : Prop :=
  ~ initial_capital st == 0
  /\ (exists first rest,
         daily_snapshots st = first :: rest
         /\ 0 < snap_portfolio_value first)
  /\ (exists latest,
         last (daily_snapshots st) = Some latest
         /\ is_Some (snap_benchmarks latest !! "SPY")).

Lemma update_daily_snapshot_reportable
    (L : NumLib) (mkt : Market) (st st' : Portfolio) :
  update_daily_snapshot L mkt st = Py.Ok st' ->
  reportable st -> reportable st'.
Proof.
  unfold update_daily_snapshot. intros Hrun (Hcap & Hfirst & _).
  destruct (update_benchmarks _ _ _ _) as [[m b]|e] eqn:Hb;
    [|discriminate Hrun].
  injection Hrun as <-. unfold reportable.
  cbn [initial_capital daily_snapshots].
  split; [exact Hcap|]. split.
  - destruct Hfirst as (first & rest & -> & Hpos).
    eexists first, _. split; [reflexivity|exact Hpos].
  - eexists. split; [apply last_snoc|].
    cbn [snap_benchmarks]. rewrite lookup_fmap.
    destruct (update_benchmarks_keys mkt _ tickers _ _ m b Hb "SPY")
      as [v Hv]; [left; left; reflexivity|].
    rewrite Hv. eexists. reflexivity.
Qed.

Lemma execute_trade_reportable
    (mkt : Market) (st st' : Portfolio) (opp : Opportunity)
    (report : TradeReport) :
  execute_trade mkt st opp = Py.Ok (report, st') ->
  reportable st -> reportable st'.
Proof.
  unfold execute_trade. intros Hex Hrep.
  destruct (existsb _ _); [injection Hex as _ <-; exact Hrep|].
  destruct (position_size opp) as [contracts|e]; [|discriminate Hex].
  cbn in Hex.
  destruct (Py.Qlt_bool _ _); injection Hex as _ <-; exact Hrep.
Qed.

Lemma run_days_reportable
    (L : NumLib) (mkts : list Market) (st st' : Portfolio) :
  run_days L mkts st = Py.Ok st' -> reportable st -> reportable st'.
Proof.
  apply (run_days_preserves reportable L).
  - intros mkt s Hrep. exact Hrep.
  - intros mkt s opp report s'. apply execute_trade_reportable.
  - intros mkt s s'. apply update_daily_snapshot_reportable.
Qed.

(** Every daily run adds one snapshot. *)
Lemma run_days_snapshot_count
    (L : NumLib) (mkts : list Market) :
  forall st st',
    run_days L mkts st = Py.Ok st' ->
    length (daily_snapshots st')
    = (length (daily_snapshots st) + length mkts)%nat.
Proof.
  induction mkts as [|mkt mkts IH]; intros st st' Hrun.
  - injection Hrun as <-. cbn. lia.
  - cbn [run_days] in Hrun.
    destruct (run_daily_update L mkt st) as [st1|e] eqn:Hday;
      [|discriminate Hrun].
    cbn in Hrun. rewrite (IH st1 st' Hrun).
    unfold run_daily_update in Hday.
    destruct (scan_for_opportunities_ok L mkt (update_positions mkt st))
      as (st2 & log & Hscan & Hsnaps & _).
    rewrite Hscan in Hday.
    change (update_daily_snapshot L mkt st2 = Py.Ok st1) in Hday.
    unfold update_daily_snapshot in Hday.
    destruct (update_benchmarks _ _ _ _) as [[m b]|e]; [|discriminate Hday].
    injection Hday as <-. cbn [daily_snapshots].
    rewrite List.length_app, Hsnaps. cbn. lia.
Qed.

Lemma win_rate_bounds (pnls : list Q) :
  exists rate,
    win_rate (stats_of pnls) = Py.Ok rate /\ 0 <= rate /\ rate <= 100.
Proof.
  destruct (stats_of_facts pnls) as (Ht & Hw & _).
  unfold win_rate. rewrite Ht, Hw.
  destruct (0 <? Z.of_nat (length pnls))%Z eqn:Htotal.
  2:{ exists 0. split; [reflexivity|]. split; lra. }
  apply Z.ltb_lt in Htotal.
  assert (Hwins : (0 <= count_if (fun p => Py.Qlt_bool 0 p) pnls
                   <= Z.of_nat (length pnls))%Z).
  { unfold count_if. split; [lia|].
    apply Nat2Z.inj_le, List.filter_length_le. }
  set (w := count_if (fun p => Py.Qlt_bool 0 p) pnls) in *.
  set (n := Z.of_nat (length pnls)) in *. clearbody w n.
  assert (Hn : 0 < inject_Z n).
  { change 0 with (inject_Z 0). rewrite <- Zlt_Qlt. exact Htotal. }
  assert (Hw0 : 0 <= inject_Z w).
  { change 0 with (inject_Z 0). rewrite <- Zle_Qle. lia. }
  assert (Hwn : inject_Z w <= inject_Z n) by (rewrite <- Zle_Qle; lia).
  unfold Py.div.
  destruct (Qeq_bool (inject_Z n) 0) eqn:E.
  { apply Qeq_bool_iff in E. lra. }
  cbn [mbind result_bind Py.bind].
  exists (inject_Z w / inject_Z n * 100). split; [reflexivity|].
  assert (H0 : 0 <= inject_Z w / inject_Z n).
  { apply Qle_shift_div_l; lra. }
  assert (H1 : inject_Z w / inject_Z n <= 1).
  { apply Qle_shift_div_r; lra. }
  split; lra.
Qed.

(** X14. After any sequence of daily runs from a fresh portfolio the
    report is produced without an exception.  It counts one day more than
    the runs; its maximum drawdown is never positive; its win rate and its
    position utilization lie between 0 and 100. *)
Theorem generate_report_after_runs
    (L : NumLib) (date : Z) (fetch : string -> option Q) (mkts : list Market) :
  exists st' report,
    run_days L mkts (initialize_portfolio date fetch) = Py.Ok st'
    /\ generate_report st' = Reported report
    /\ rep_days_trading report = S (length mkts)
    /\ rep_max_drawdown report <= 0
    /\ 0 <= rep_win_rate report <= 100
    /\ 0 <= rep_utilization report <= 100.
Proof.
  destruct (run_days_fresh_ok L date fetch mkts) as (st' & Hrun).
  pose proof (run_days_snapshot_count L mkts _ st' Hrun) as Hcount.
  destruct (run_days_reportable L mkts _ st' Hrun)
    as (Hcap & (first & rest & Hsnaps & Hfirst)
        & (latest & Hlast & [spy Hspy])).
  { split; [discriminate|]. split.
    - eexists _, []. split; [reflexivity|reflexivity].
    - eexists. split; [reflexivity|]. eexists. reflexivity. }
  destruct (run_days_stats_derived L mkts _ st' Hrun) as (pnls & _ & Hstats).
  { exists []. split; reflexivity. }
  destruct (run_days_within_limits L mkts _ st' Hrun) as (Hopen & _).
  { split; [cbn; lia|]. split; [intros t; cbn; lia|constructor]. }
  destruct (win_rate_bounds pnls) as (rate & Hrate & Hrate0 & Hrate100).
  destruct (drawdown_loop_ok (map snap_portfolio_value (first :: rest))
              (snap_portfolio_value first) 0 Hfirst (Qle_refl 0))
    as (dd & Hdd & Hdd0).
  assert (E : Qeq_bool (initial_capital st') 0 = false).
  { destruct (Qeq_bool (initial_capital st') 0) eqn:E; [|reflexivity].
    apply Qeq_bool_iff in E. contradiction. }
  exists st'. unfold generate_report.
  rewrite Hlast. cbn [from_option mbind report_bind].
  unfold Py.div. rewrite E. cbn [from_py mbind report_bind].
  rewrite Hspy. cbn [from_option mbind report_bind].
  rewrite Hstats, Hrate. cbn [from_py mbind report_bind].
  unfold max_drawdown. rewrite Hsnaps.
  cbn [map head from_option mbind report_bind].
  change (snap_portfolio_value first :: map snap_portfolio_value rest)
    with (map snap_portfolio_value (first :: rest)).
  rewrite Hdd. cbn [from_py mbind report_bind mret report_ret].
  eexists. split; [exact Hrun|]. split; [reflexivity|].
  cbn [rep_days_trading rep_max_drawdown rep_win_rate rep_utilization].
  split; [rewrite <- Hsnaps, Hcount; reflexivity|].
  split; [exact Hdd0|]. split; [split; assumption|].
  set (n := length (positions st')) in *. clearbody n.
  assert (H0 : 0 <= inject_Z (Z.of_nat n)).
  { change 0 with (inject_Z 0). rewrite <- Zle_Qle. lia. }
  assert (H4 : inject_Z (Z.of_nat n) <= 4).
  { change 4 with (inject_Z 4). rewrite <- Zle_Qle. lia. }
  unfold max_total_positions, Qdiv. change (/ inject_Z 4) with (1 # 4).
  split; lra.
Qed.
